(** * Stratum proxy: the session dispatcher and the job manager

    A shallow embedding of [src/index.js].  The file holds two variants of
    the proxy, one after the other: the first (lines 1-429, module [V1]) is
    the WildRig-oriented server, the second (lines 430-802, module [V2]) is
    the multi-algorithm server.  Both are embedded; what they share is
    declared once, before the modules.

    JS values are an inductive type, numbers are binary64 floats, the job
    table is a finite map, a socket is the list of the objects written to
    it, and the node behind the RPC client is a record of replies; the
    requests sent to the node are kept in a log, so that a statement can say
    that none was sent.

    What the model leaves out: the logger (a log line is embedded only
    where evaluating its text can throw), the serialisation of a frame
    ([JSON.stringify] and the newline: a frame is the object written), the
    monitoring endpoint and the listen calls.  A write to a socket does not
    throw, so the [catch] around it in [sendMiningJob], which deletes the
    session from the registry, is never entered.
    One call of a handler is embedded as one function, which runs to its end
    before the next line is handled: the source starts the handlers of the
    lines of one chunk without awaiting each other.  In the same way the
    events of a server (a connection, a chunk, the end of a socket, a tick
    of a timer) are handled one after the other. *)

From Stdlib Require Import PrimFloat SpecFloat FloatOps Uint63.
From Stdlib Require Import Ascii String DecimalString DecimalN.
From stdpp Require Import gmap strings list.

#[local] Set Warnings "-inexact-float,-register-all".
#[local] Open Scope string_scope.

(** ** JS values *)

(** The values a parsed JSON text can hold, [undefined], and the built-in
    functions that a property read can reach through [Object.prototype]. *)
Inductive JsVal : Type :=
| JUndef
| JNull
| JBool (b : bool)
| JNum (x : float)
| JStr (s : string)
| JArr (items : list JsVal)
| JObj (props : list (string * JsVal))
| JFun (name : string).

(** What the model takes from the JS engine: [Number::toString], the text
    of a number inside a template literal or a property key. *)
Class JsRuntime : Type := { number_to_string : float -> string }.

(** [if (v)], [!v], [a || b]. *)
Definition truthy (v : JsVal) : bool :=
  match v with
  | JUndef | JNull => false
  | JBool b => b
  | JNum x => negb (PrimFloat.is_zero x || PrimFloat.is_nan x)
  | JStr s => negb (String.eqb s "")
  | JArr _ | JObj _ | JFun _ => true
  end.

Definition js_or (a b : JsVal) : JsVal := if truthy a then a else b.

(** [v === 'literal']: the test of a [switch] over string cases. *)
Definition is_str (v : JsVal) (lit : string) : bool :=
  match v with
  | JStr s => String.eqb s lit
  | _ => false
  end.

(** [v === x] for a number literal [x]. *)
Definition is_num (v : JsVal) (x : float) : bool :=
  match v with
  | JNum y => PrimFloat.eqb y x
  | _ => false
  end.

Definition is_nullish (v : JsVal) : bool :=
  match v with
  | JUndef | JNull => true
  | _ => false
  end.

Fixpoint assoc (k : string) (props : list (string * JsVal)) : option JsVal :=
  match props with
  | [] => None
  | (k', v) :: rest => if String.eqb k' k then Some v else assoc k rest
  end.

(** [v.k] for a name [k] that no prototype defines ([id], [method],
    [params], the fields of a block template): [None] is the TypeError of
    a read on [null] or [undefined]. *)
Definition get_prop (v : JsVal) (k : string) : option JsVal :=
  match v with
  | JUndef | JNull => None
  | JObj props => Some (default JUndef (assoc k props))
  | _ => Some JUndef
  end.

(** The same read where the value is known not to be nullish. *)
Definition field (v : JsVal) (k : string) : JsVal :=
  default JUndef (get_prop v k).

(** The elements that array destructuring [const [a, b] = v] walks:
    [None] is the TypeError of a value that is not iterable.  Strings are
    ASCII in the model, one element per character. *)
Definition iterate (v : JsVal) : option (list JsVal) :=
  match v with
  | JArr items => Some items
  | JStr s => Some ((fun c => JStr (String c "")) <$> String.list_ascii_of_string s)
  | _ => None
  end.

(** The [i]-th variable of a destructuring pattern. *)
Definition nth_elem (items : list JsVal) (i : nat) : JsVal :=
  default JUndef (items !! i).

Definition join_with (sep : string) (parts : list string) : string :=
  String.concat sep parts.

(** Decimal digits of a non-negative integer, as a template literal
    prints a counter. *)
Definition decimal (n : N) : string :=
  NilEmpty.string_of_uint (N.to_uint n).

Section ToString.
Context `{JsRuntime}.

(** [String(v)], [`${v}`] and the conversion of a property key. *)
Fixpoint ToString (v : JsVal) : string :=
  match v with
  | JUndef => "undefined"
  | JNull => "null"
  | JBool true => "true"
  | JBool false => "false"
  | JNum x => number_to_string x
  | JStr s => s
  | JArr items =>
      join_with ","
        (map (fun e => if is_nullish e then "" else ToString e) items)
  | JObj _ => "[object Object]"
  | JFun name => "function " +:+ name +:+ "() { [native code] }"
  end.

End ToString.

(** [hay.includes(needle)]. *)
Fixpoint includes (hay needle : string) : bool :=
  if String.prefix needle hay then true
  else match hay with
       | EmptyString => false
       | String _ rest => includes rest needle
       end.

(** ** Number.prototype.toFixed *)

Definition pad_left (width : nat) (digits : string) : string :=
  String.string_of_list_ascii
    (repeat "0"%char (width - String.length digits)) +:+ digits.

(** The digits of [n / 10^f] with [f] decimals. *)
Definition fixed_digits (n : N) (f : nat) : string :=
  let m := pad_left (S f) (decimal n) in
  let k := String.length m in
  match f with
  | O => m
  | S _ => String.substring 0 (k - f) m +:+ "." +:+ String.substring (k - f) f m
  end.

(** [x.toFixed(f)]: the integer [n] nearest to [x * 10^f], the larger one
    on a tie, taken on the exact value of the float; at [1e21] and above
    the engine prints the number as [ToString] does. *)
Definition toFixed `{JsRuntime} (x : float) (f : nat) : string :=
  match Prim2SF x with
  | S754_nan => "NaN"
  | S754_infinity _ => number_to_string x
  | S754_zero _ => fixed_digits 0 f
  | S754_finite s m e =>
      let scale := (10 ^ Z.of_nat f)%Z in
      let sign := if s then "-" else "" in
      if (0 <=? e)%Z then
        let v := (Z.pos m * 2 ^ e)%Z in
        if (10 ^ 21 <=? v)%Z then number_to_string x
        else sign +:+ fixed_digits (Z.to_N (v * scale)) f
      else
        let d := (2 ^ (- e))%Z in
        let q := (Z.pos m * scale / d)%Z in
        let r := (Z.pos m * scale mod d)%Z in
        let n := if (d <=? 2 * r)%Z then (q + 1)%Z else q in
        sign +:+ fixed_digits (Z.to_N n) f
  end.

(** ** Buffers *)

Definition hex_digit (n : N) : ascii :=
  match n with
  | 0 => "0" | 1 => "1" | 2 => "2" | 3 => "3" | 4 => "4" | 5 => "5"
  | 6 => "6" | 7 => "7" | 8 => "8" | 9 => "9" | 10 => "a" | 11 => "b"
  | 12 => "c" | 13 => "d" | 14 => "e" | _ => "f"
  end%N%char.

Definition hex_value (c : ascii) : option N :=
  let n := N_of_ascii c in
  if ((48 <=? n) && (n <=? 57))%N then Some (n - 48)%N
  else if ((97 <=? n) && (n <=? 102))%N then Some (n - 87)%N
  else if ((65 <=? n) && (n <=? 70))%N then Some (n - 55)%N
  else None.


(** [Buffer.from(s, 'hex')]: two digits a byte, up to the first pair that
    is not hexadecimal. *)
Fixpoint Buffer_from_hex (s : string) : list N :=
  match s with
  | String a (String b rest) =>
      match hex_value a, hex_value b with
      | Some hi, Some lo => (16 * hi + lo)%N :: Buffer_from_hex rest
      | _, _ => []
      end
  | _ => []
  end.

(** [buf.toString('hex')]. *)
Fixpoint Buffer_to_hex (buf : list N) : string :=
  match buf with
  | [] => ""
  | b :: rest =>
      String (hex_digit (b / 16)) (String (hex_digit (b mod 16)) (Buffer_to_hex rest))
  end.

(** ['s'.repeat(n)]. *)
Fixpoint str_repeat (s : string) (n : nat) : string :=
  match n with
  | O => ""
  | S n' => s +:+ str_repeat s n'
  end.

Definition float_of_N (n : N) : float :=
  PrimFloat.of_uint63 (Uint63.of_Z (Z.of_N n)).

(** ** Errors and promises *)

(** An error object that carries a message: [new Error(message)] has no
    [code], an error of the RPC client has one. *)
Record JsError : Type := mkError { err_code : JsVal; err_message : string }.

Definition Error (message : string) : JsError :=
  {| err_code := JUndef; err_message := message |}.

(** What a [catch] can receive: a TypeError of the engine (its text never
    reaches a frame) or an error object. *)
Inductive Exn : Type :=
| TypeError
| Thrown (e : JsError).

(** How an [async] function ends: it returns, it throws (the promise is
    rejected), or its promise is never settled. *)
Inductive Outcome (A : Type) : Type :=
| Return (a : A)
| Throw (x : Exn)
| Pending.

Arguments Return {A} a.
Arguments Throw {A} x.
Arguments Pending {A}.

(** Code that reads and mutates a state [S] and may throw. *)
Definition M (S A : Type) : Type := S -> Outcome A * S.

Definition ret {S A} (a : A) : M S A := fun s => (Return a, s).

Definition bind {S A B} (m : M S A) (k : A -> M S B) : M S B :=
  fun s =>
    match m s with
    | (Return a, s') => k a s'
    | (Throw x, s') => (Throw x, s')
    | (Pending, s') => (Pending, s')
    end.

Definition throw {S A} (x : Exn) : M S A := fun s => (Throw x, s).

Definition raise {S A} (e : JsError) : M S A := throw (Thrown e).

Definition pending {S A} : M S A := fun s => (Pending, s).

(** [try { body } catch (x) { handler x }]: what the body did to the
    state before it threw stays done. *)
Definition try_catch {S A} (body : M S A) (handler : Exn -> M S A) : M S A :=
  fun s =>
    match body s with
    | (Throw x, s') => handler x s'
    | r => r
    end.

Definition gets {S A} (f : S -> A) : M S A := fun s => (Return (f s), s).

Definition modify {S} (f : S -> S) : M S unit := fun s => (Return tt, f s).

#[export] Instance M_ret {S} : MRet (M S) := fun _ a => ret a.
#[export] Instance M_bind {S} : MBind (M S) := fun _ _ k m => bind m k.

(** ** The node behind the RPC client *)

Inductive RpcReply (A : Type) : Type :=
| RpcErr (err : JsError)
| RpcOk (result : A).

Arguments RpcErr {A} err.
Arguments RpcOk {A} result.

(** The fields of [getblockchaininfo] that the proxy reads. *)
Record BlockchainInfo : Type := {
  blocks : JsVal;
  headers : JsVal;
  verificationprogress : float
}.

(** What the node answers to each request of one handler call: the
    callback's [(err, result)].  [None] stands for a missing [info]. *)
Record Backend : Type := {
  getBlockchainInfo : RpcReply (option BlockchainInfo);
  getblocktemplate : RpcReply JsVal;
  submitblock : list JsVal -> RpcReply JsVal
}.

(** The requests sent to the node, with their argument. *)
Inductive RpcCall : Type :=
| GetBlockchainInfo
| GetBlockTemplate (options : JsVal)
| SubmitBlock (params : list JsVal).

(** ** Jobs and the process-wide state *)

Record Job : Type := {
  job_id : string;
  job_algorithm : JsVal;
  prevhash : JsVal;
  coinbase : JsVal;
  version : JsVal;
  nbits : JsVal;
  ntime : JsVal;
  clean_jobs : bool;
  job_difficulty : float;
  progpow_header : JsVal;
  progpow_mix_hash : JsVal;
  merkle : JsVal;
  seed_hash : JsVal
}.

(** [jobCounter] counts the jobs made: a JS number that starts at 0 and
    is only ever incremented, embedded as a natural number (the increments
    of a JS number are exact up to 2^53).  [currentJobs] is the [Map] from
    job ids to jobs; [rpc] lists the requests sent so far, oldest first. *)
Record World : Type := {
  jobCounter : N;
  currentJobs : gmap string Job;
  rpc : list RpcCall
}.

Definition initial_world : World :=
  {| jobCounter := 0; currentJobs := ∅; rpc := [] |}.

Definition send_rpc (call : RpcCall) : M World unit :=
  modify (fun w => {| jobCounter := jobCounter w;
                      currentJobs := currentJobs w;
                      rpc := rpc w ++ [call] |}).

(** [++jobCounter]. *)
Definition pre_increment_jobCounter : M World N :=
  fun w => (Return (jobCounter w + 1)%N,
            {| jobCounter := (jobCounter w + 1)%N;
               currentJobs := currentJobs w;
               rpc := rpc w |}).

(** [currentJobs.set(job.job_id, job)]. *)
Definition currentJobs_set (job : Job) : M World unit :=
  modify (fun w => {| jobCounter := jobCounter w;
                      currentJobs := <[job_id job := job]> (currentJobs w);
                      rpc := rpc w |}).

(** ** Sessions *)

(** The object built for a connection.  [socket] is the list of the
    objects written with [socket.write(JSON.stringify(obj) + '\n')],
    oldest first; [extraNonce] is [None] while the property is not set. *)
Record Client : Type := {
  socket : list JsVal;
  algorithm : JsVal;
  authorized : bool;
  wallet : JsVal;
  difficulty : JsVal;
  extraNonce : option (list N);
  connected : string
}.

Definition set_algorithm (a : JsVal) (c : Client) : Client :=
  {| socket := socket c; algorithm := a; authorized := authorized c;
     wallet := wallet c; difficulty := difficulty c;
     extraNonce := extraNonce c; connected := connected c |}.

Definition set_authorized (b : bool) (c : Client) : Client :=
  {| socket := socket c; algorithm := algorithm c; authorized := b;
     wallet := wallet c; difficulty := difficulty c;
     extraNonce := extraNonce c; connected := connected c |}.

Definition set_wallet (w : JsVal) (c : Client) : Client :=
  {| socket := socket c; algorithm := algorithm c; authorized := authorized c;
     wallet := w; difficulty := difficulty c;
     extraNonce := extraNonce c; connected := connected c |}.

Definition set_difficulty (d : JsVal) (c : Client) : Client :=
  {| socket := socket c; algorithm := algorithm c; authorized := authorized c;
     wallet := wallet c; difficulty := d;
     extraNonce := extraNonce c; connected := connected c |}.

Definition set_extraNonce (buf : list N) (c : Client) : Client :=
  {| socket := socket c; algorithm := algorithm c; authorized := authorized c;
     wallet := wallet c; difficulty := difficulty c;
     extraNonce := Some buf; connected := connected c |}.

Definition socket_write (frame : JsVal) (c : Client) : Client :=
  {| socket := socket c ++ [frame]; algorithm := algorithm c;
     authorized := authorized c; wallet := wallet c;
     difficulty := difficulty c; extraNonce := extraNonce c;
     connected := connected c |}.

(** A handler works on its session and on the process-wide state. *)
Definition State : Type := Client * World.

Definition in_world {A} (m : M World A) : M State A :=
  fun '(c, w) => let '(r, w') := m w in (r, (c, w')).

Definition the_client : M State Client := gets fst.

Definition update_client (f : Client -> Client) : M State unit :=
  modify (fun '(c, w) => (f c, w)).

Definition write (frame : JsVal) : M State unit :=
  update_client (socket_write frame).

(** The fields of a session that the protocol binds: all but the socket
    and the connection time. *)
Definition session_state (c : Client) : JsVal * bool * JsVal * JsVal * option (list N) :=
  (algorithm c, authorized c, wallet c, difficulty c, extraNonce c).

(** ** Constants and helpers of both variants *)

Definition ALGORITHMS : list (string * JsVal) :=
  [("progpow-veil", JStr "progpow");
   ("sha256d", JStr "sha256d");
   ("randomx-veil", JStr "randomx")].

(** What an object literal inherits: a read of one of these names on
    [ALGORITHMS] finds a function (or the prototype object itself). *)
Definition Object_prototype : list (string * JsVal) :=
  [("constructor", JFun "Object");
   ("__defineGetter__", JFun "__defineGetter__");
   ("__defineSetter__", JFun "__defineSetter__");
   ("hasOwnProperty", JFun "hasOwnProperty");
   ("__lookupGetter__", JFun "__lookupGetter__");
   ("__lookupSetter__", JFun "__lookupSetter__");
   ("isPrototypeOf", JFun "isPrototypeOf");
   ("propertyIsEnumerable", JFun "propertyIsEnumerable");
   ("toString", JFun "toString");
   ("valueOf", JFun "valueOf");
   ("__proto__", JObj []);
   ("toLocaleString", JFun "toLocaleString")].

(** [ALGORITHMS[key]]. *)
Definition ALGORITHMS_get `{JsRuntime} (key : JsVal) : JsVal :=
  match assoc (ToString key) ALGORITHMS with
  | Some v => v
  | None => default JUndef (assoc (ToString key) Object_prototype)
  end.

Definition EXTRA_NONCE_BYTES : N := 4.

Definition getDifficultyForAlgo (algo : JsVal) : float :=
  if is_str algo "progpow" then 0.002
  else if is_str algo "sha256d" then 0.01
  else if is_str algo "randomx" then 0.005
  else 0.01.

(** The response objects [{ id, error, result: null }] and
    [{ id, result: true, error: null }]. *)
Definition error_response (id : JsVal) (error : JsVal) : JsVal :=
  JObj [("id", id); ("error", error); ("result", JNull)].

Definition true_response (id : JsVal) : JsVal :=
  JObj [("id", id); ("result", JBool true); ("error", JNull)].

Definition set_difficulty_frame (d : JsVal) : JsVal :=
  JObj [("id", JNull); ("method", JStr "mining.set_difficulty");
        ("params", JArr [d])].

Definition invalid_message_frame : JsVal :=
  JObj [("id", JNull); ("error", JStr "Invalid message"); ("result", JNull)].

(** The [catch] that closes a handler's [try]. *)
Definition internal_error (id : JsVal) : Exn -> M State JsVal :=
  fun error => mret (error_response id (JStr "Internal error")).

(** [const { id, method, params } = message]. *)
Definition destructure_message (message : JsVal) : option (JsVal * JsVal * JsVal) :=
  match get_prop message "id", get_prop message "method", get_prop message "params" with
  | Some id, Some method, Some params => Some (id, method, params)
  | _, _, _ => None
  end.

(** The job object that [createMiningJob] builds from a template, with the
    fields its [switch (algo)] adds; a field that is not set reads as
    [undefined]. *)
Definition build_job `{JsRuntime} (algo : JsVal) (counter : N) (template : JsVal) : Job :=
  {| job_id := ToString algo +:+ "-" +:+ decimal counter;
     job_algorithm := algo;
     prevhash := field template "previousblockhash";
     coinbase := field template "coinbasetxn";
     version := field template "version";
     nbits := field template "bits";
     ntime := field template "curtime";
     clean_jobs := true;
     job_difficulty := getDifficultyForAlgo algo;
     progpow_header :=
       if is_str algo "progpow" then field template "progpow_header" else JUndef;
     progpow_mix_hash :=
       if is_str algo "progpow" then field template "progpow_mix_hash" else JUndef;
     merkle :=
       if is_str algo "progpow" then JUndef
       else if is_str algo "sha256d" then field template "merkle_root" else JUndef;
     seed_hash :=
       if is_str algo "progpow" then JUndef
       else if is_str algo "sha256d" then JUndef
       else if is_str algo "randomx" then field template "randomx_seed" else JUndef |}.

Definition template_options : JsVal := JObj [("rules", JArr [JStr "segwit"])].

(** The value built for a [mining.submit]. *)
Record Submission : Type := {
  algo : JsVal;
  worker : JsVal;
  jobId : JsVal;
  nonce : JsVal;
  header : JsVal;
  mixHash : JsVal
}.

(** How the promise of [submitWork] settles. *)
Inductive Settled : Type :=
| Resolved (result : JsVal)
| Rejected (err : JsError).

(** The text of a line of a data chunk, as [JSON.parse] reads it. *)
Inductive Line : Type :=
| EmptyLine
| BadJson
| Json (parsed : JsVal).

(** ** The first variant (lines 1-429) *)

Module V1.
Section Variant.
Context `{JsRuntime}.

Record NodeStatus : Type := {
  isSynced : bool;
  status_blocks : JsVal;
  status_headers : JsVal;
  verificationProgress : float
}.

Definition checkNodeStatus (node : Backend) : M World NodeStatus :=
  send_rpc GetBlockchainInfo;;
  match getBlockchainInfo node with
  | RpcErr err => raise err
  | RpcOk None => raise (Error "No blockchain info received")
  | RpcOk (Some info) =>
      mret {| isSynced := PrimFloat.ltb 0.999 (verificationprogress info);
              status_blocks := blocks info;
              status_headers := headers info;
              verificationProgress := verificationprogress info |}
  end.

Definition not_synced_message (progress : float) : string :=
  "Node is not fully synced (" +:+ toFixed (progress * 100) 2
    +:+ "%). Please wait for sync completion.".

Definition createMiningJob (node : Backend) (algo : JsVal) : M World Job :=
  if negb (truthy algo) then raise (Error "Algorithm not specified")
  else
    try_catch
      (nodeStatus ← checkNodeStatus node;
       if negb (isSynced nodeStatus)
       then raise (Error (not_synced_message (verificationProgress nodeStatus)))
       else mret tt)
      (fun error => throw error);;
    send_rpc (GetBlockTemplate template_options);;
    match getblocktemplate node with
    | RpcErr err =>
        if is_num (err_code err) (-10)
           || includes (err_message err) "syncing"
           || includes (err_message err) "loading"
        then raise (Error "Node is not ready for mining. Please wait for sync completion.")
        else raise err
    | RpcOk template =>
        if negb (truthy template) then raise (Error "No template received from node")
        else
          counter ← pre_increment_jobCounter;
          let job := build_job algo counter template in
          currentJobs_set job;;
          mret job
    end.

(** [job.coinbase1], [job.coinbase2] and [job.merkle_branch] are read
    from a job that has no such property. *)
Definition miningNotify (job : Job) : JsVal :=
  JObj [("id", JNull);
        ("method", JStr "mining.notify");
        ("params", JArr [JStr (job_id job);
                         prevhash job;
                         js_or JUndef (JStr "");
                         js_or JUndef (JStr "");
                         js_or JUndef (JArr []);
                         version job;
                         nbits job;
                         ntime job;
                         JBool true])].

Definition sendMiningJob (job : Job) : M State unit :=
  write (miningNotify job).

Definition submitWork (node : Backend) (submission : Submission) : M World Settled :=
  let params :=
    if is_str (algo submission) "progpow"
    then [header submission; mixHash submission; nonce submission]
    else [header submission; nonce submission] in
  send_rpc (SubmitBlock params);;
  match submitblock node params with
  | RpcErr err => mret (Rejected err)
  | RpcOk result => mret (Resolved result)
  end.

Definition subscribeResponse (id : JsVal) (extraNonce : list N) : JsVal :=
  JObj [("id", id);
        ("result",
         JArr [JArr [JArr [JStr "mining.set_difficulty";
                           JStr "b4b6693b72a50c7116db18d6497cac52"];
                     JArr [JStr "mining.notify";
                           JStr "ae6812eb4cd7735a302a8a9dd95cf71f"]];
               JStr (Buffer_to_hex extraNonce);
               JNum (float_of_N EXTRA_NONCE_BYTES)]);
        ("error", JNull)].

(** The variables that the destructuring of [params] binds (user agent,
    protocol, client id) reach the log alone. *)
Definition subscribe (node : Backend) (id params : JsVal) : M State JsVal :=
  match iterate params with
  | None => throw TypeError
  | Some _ =>
      if negb (truthy (ALGORITHMS_get (JStr "progpow-veil")))
      then mret (error_response id (JStr "Unsupported algorithm"))
      else
        update_client (set_algorithm (JStr "progpow"));;
        c ← the_client;
        update_client (set_difficulty (JNum (getDifficultyForAlgo (algorithm c))));;
        update_client
          (set_extraNonce
             (Buffer_from_hex (str_repeat "00" (N.to_nat EXTRA_NONCE_BYTES))));;
        c ← the_client;
        write (set_difficulty_frame (difficulty c));;
        match extraNonce c with
        | None => throw TypeError
        | Some buf => write (subscribeResponse id buf)
        end;;
        try_catch
          (c ← the_client;
           job ← in_world (createMiningJob node (algorithm c));
           sendMiningJob job)
          (fun err => mret tt);;
        mret JNull
  end.

(** The log line after the write reads [params[0]]. *)
Definition authorize (id params : JsVal) : M State JsVal :=
  write (true_response id);;
  (if is_nullish params then throw TypeError else mret tt);;
  mret JNull.

Definition submit (node : Backend) (id params : JsVal) : M State JsVal :=
  match iterate params with
  | None => throw TypeError
  | Some items =>
      c ← the_client;
      let submission :=
        {| algo := algorithm c;
           worker := js_or (nth_elem items 0) (JStr "local_worker");
           jobId := nth_elem items 1;
           nonce := nth_elem items 2;
           header := nth_elem items 3;
           mixHash := nth_elem items 4 |} in
      settled ← in_world (submitWork node submission);
      match settled with
      | Resolved _ => mret (true_response id)
      | Rejected error => mret (error_response id (JStr (err_message error)))
      end
  end.

Definition handleStratumMethod (node : Backend) (message : JsVal) : M State JsVal :=
  match destructure_message message with
  | None => throw TypeError
  | Some (id, method, params) =>
      try_catch
        (if is_str method "mining.subscribe" then subscribe node id params
         else if is_str method "mining.authorize" then authorize id params
         else if is_str method "mining.submit" then submit node id params
         else mret (error_response id (JStr ("Unknown method " +:+ ToString method))))
        (internal_error id)
  end.

End Variant.

(** The session object of a new connection. *)
Definition new_client (now : string) : Client :=
  {| socket := [];
     algorithm := JNull;
     authorized := true;
     wallet := JStr "local_worker";
     difficulty := JNull;
     extraNonce := None;
     connected := now |}.

End V1.

(** ** The second variant (lines 430-802) *)

Module V2.
Section Variant.
Context `{JsRuntime}.

(** The object literal evaluates [++jobCounter] before it reads the
    template: on a template that is [null] or [undefined] the callback
    throws inside the RPC client after the increment, and the promise is
    left unsettled. *)
Definition createMiningJob (node : Backend) (algo : JsVal) : M World Job :=
  send_rpc (GetBlockTemplate template_options);;
  match getblocktemplate node with
  | RpcErr err => raise err
  | RpcOk template =>
      counter ← pre_increment_jobCounter;
      if is_nullish template then pending
      else
        let job := build_job algo counter template in
        currentJobs_set job;;
        mret job
  end.

Definition submitWork (node : Backend) (submission : Submission) : M World Settled :=
  let call params :=
    send_rpc (SubmitBlock params);;
    match submitblock node params with
    | RpcErr err => mret (Rejected err)
    | RpcOk result => mret (Resolved result)
    end in
  if is_str (algo submission) "progpow"
  then call [header submission; mixHash submission; nonce submission]
  else if is_str (algo submission) "sha256d"
  then call [header submission; nonce submission]
  else if is_str (algo submission) "randomx"
  then call [header submission; nonce submission]
  else mret (Rejected (Error "Invalid algorithm")).

(** The notification, with the fields that the [switch] over the
    session's algorithm pushes. *)
Definition miningNotify (c : Client) (job : Job) : JsVal :=
  let extras :=
    if is_str (algorithm c) "progpow"
    then [progpow_header job; progpow_mix_hash job]
    else if is_str (algorithm c) "sha256d" then [merkle job]
    else if is_str (algorithm c) "randomx" then [seed_hash job]
    else [] in
  JObj [("id", JNull);
        ("method", JStr "mining.notify");
        ("params", JArr ([JStr (job_id job);
                          prevhash job;
                          coinbase job;
                          version job;
                          nbits job;
                          ntime job;
                          JBool true] ++ extras))].

Definition sendMiningJob (job : Job) : M State unit :=
  c ← the_client;
  if negb (authorized c) then mret tt
  else write (miningNotify c job).

Definition subscribeResponse (id clientId : JsVal) : JsVal :=
  JObj [("id", id);
        ("result",
         JArr [JArr [JArr [JStr "mining.set_difficulty"; JStr (ToString id)];
                     JArr [JStr "mining.notify"; JStr (ToString id)]];
               JStr (ToString clientId);
               JStr "08"]);
        ("error", JNull)].

Definition subscribe (id params : JsVal) : M State JsVal :=
  match iterate params with
  | None => throw TypeError
  | Some items =>
      let algo := nth_elem items 0 in
      let clientId := nth_elem items 1 in
      if negb (truthy (ALGORITHMS_get algo))
      then mret (error_response id (JStr "Unsupported algorithm"))
      else
        update_client (set_algorithm (ALGORITHMS_get algo));;
        c ← the_client;
        update_client (set_difficulty (JNum (getDifficultyForAlgo (algorithm c))));;
        c ← the_client;
        write (set_difficulty_frame (difficulty c));;
        mret (subscribeResponse id clientId)
  end.

Definition authorize (node : Backend) (id params : JsVal) : M State JsVal :=
  match iterate params with
  | None => throw TypeError
  | Some items =>
      let username := nth_elem items 0 in
      update_client (set_authorized true);;
      update_client (set_wallet username);;
      try_catch
        (c ← the_client;
         job ← in_world (createMiningJob node (algorithm c));
         sendMiningJob job)
        (fun error => mret tt);;
      mret (true_response id)
  end.

Definition submit (node : Backend) (id params : JsVal) : M State JsVal :=
  c ← the_client;
  if negb (authorized c)
  then mret (error_response id (JStr "Unauthorized worker"))
  else
    match iterate params with
    | None => throw TypeError
    | Some items =>
        let submission :=
          {| algo := algorithm c;
             worker := nth_elem items 0;
             jobId := nth_elem items 1;
             nonce := nth_elem items 2;
             header := nth_elem items 3;
             mixHash := nth_elem items 4 |} in
        settled ← in_world (submitWork node submission);
        match settled with
        | Resolved _ => mret (true_response id)
        | Rejected error => mret (error_response id (JStr (err_message error)))
        end
    end.

(** The [switch] has no [default]: on any other method the function
    ends without a [return]. *)
Definition handleStratumMethod (node : Backend) (message : JsVal) : M State JsVal :=
  match destructure_message message with
  | None => throw TypeError
  | Some (id, method, params) =>
      try_catch
        (if is_str method "mining.subscribe" then subscribe id params
         else if is_str method "mining.authorize" then authorize node id params
         else if is_str method "mining.submit" then submit node id params
         else mret JUndef)
        (internal_error id)
  end.

End Variant.

Definition new_client (now : string) : Client :=
  {| socket := [];
     algorithm := JNull;
     authorized := false;
     wallet := JNull;
     difficulty := JNull;
     extraNonce := None;
     connected := now |}.

End V2.

(** ** The connection's data callback (the same in both variants) *)

(** One line of a chunk: parse it, await the handler, write the response
    when there is one; any exception writes the invalid-message frame. *)
Definition onLine (handle : JsVal -> M State JsVal) (line : Line) (s : State) : State :=
  match line with
  | EmptyLine => s
  | BadJson => snd (write invalid_message_frame s)
  | Json parsed =>
      match handle parsed s with
      | (Return response, s') =>
          if truthy response then snd (write response s') else s'
      | (Throw _, s') => snd (write invalid_message_frame s')
      | (Pending, s') => s'
      end
  end.

(** The lines that a session receives, each with the node's answers to
    the requests that its handler sends. *)
Fixpoint onLines (handle : Backend -> JsVal -> M State JsVal)
    (input : list (Line * Backend)) (s : State) : State :=
  match input with
  | [] => s
  | (line, node) :: rest => onLines handle rest (onLine (handle node) line s)
  end.

(** [createMiningJob] called again and again: the jobs it returned,
    oldest first, and the state it leaves. *)
Fixpoint issue (create : Backend -> JsVal -> M World Job)
    (calls : list (Backend * JsVal)) (w : World) : list Job * World :=
  match calls with
  | [] => ([], w)
  | (node, algo) :: rest =>
      match create node algo w with
      | (Return job, w') => let '(jobs, w'') := issue create rest w' in (job :: jobs, w'')
      | (_, w') => issue create rest w'
      end
  end.

(** ** The session registry and the timers *)

(** The server as a whole.  A session object is shared by reference
    between the callbacks of its socket, the registry and the timer: [heap]
    holds the session objects by reference, [clients] is the [Set] of the
    registered references in insertion order (the order in which a [Set] is
    walked), [next_ref] is the next reference to hand out and [process] is
    the process-wide state. *)
Record Server : Type := {
  heap : gmap nat Client;
  clients : list nat;
  next_ref : nat;
  process : World
}.

Definition initial_server : Server :=
  {| heap := ∅; clients := []; next_ref := 0; process := initial_world |}.

(** [clients.add(client)] and [clients.delete(client)]. *)
Definition clients_add (r : nat) (refs : list nat) : list nat :=
  if decide (r ∈ refs) then refs else refs ++ [r].

Definition clients_delete (r : nat) (refs : list nat) : list nat :=
  filter (fun r' => r' <> r) refs.

(** The callback of [net.createServer]: a new session object, added to
    the registry. *)
Definition onConnection (fresh : string -> Client) (now : string) (srv : Server)
    : nat * Server :=
  let r := next_ref srv in
  (r, {| heap := <[r := fresh now]> (heap srv);
         clients := clients_add r (clients srv);
         next_ref := S r;
         process := process srv |}).

(** [socket.on('data', ...)] for the session [r]: the lines of the chunk,
    handled on the shared session object. *)
Definition onData (handle : Backend -> JsVal -> M State JsVal)
    (r : nat) (input : list (Line * Backend)) (srv : Server) : Server :=
  match heap srv !! r with
  | Some c =>
      let '(c', w') := onLines handle input (c, process srv) in
      {| heap := <[r := c']> (heap srv);
         clients := clients srv;
         next_ref := next_ref srv;
         process := w' |}
  | None => srv
  end.

(** [socket.on('end', ...)] and [socket.on('error', ...)]: both delete
    the session from the registry. *)
Definition onClose (r : nat) (srv : Server) : Server :=
  {| heap := heap srv;
     clients := clients_delete r (clients srv);
     next_ref := next_ref srv;
     process := process srv |}.

Section Timer.
Context `{JsRuntime}.

(** The body of the timer's loop for one authorized session: make a job
    for the session's algorithm and send it; an error is logged. *)
Definition updateClient (node : Backend) : M State unit :=
  try_catch
    (c ← the_client;
     job ← in_world (V2.createMiningJob node (algorithm c));
     V2.sendMiningJob job)
    (fun error => mret tt).

(** The loop [for (const client of clients)] of the timer, over the
    references still to visit; [node_for r] holds the node's answer to the
    request made for the session [r].  The loop awaits each job: where a
    promise is never settled the loop does not go on. *)
Fixpoint updateClients (refs : list nat) (node_for : nat -> Backend) (srv : Server)
    : Server :=
  match refs with
  | [] => srv
  | r :: rest =>
      match heap srv !! r with
      | Some c =>
          if authorized c then
            match updateClient (node_for r) (c, process srv) with
            | (o, (c', w')) =>
                let srv' := {| heap := <[r := c']> (heap srv);
                               clients := clients srv;
                               next_ref := next_ref srv;
                               process := w' |} in
                match o with
                | Pending => srv'
                | _ => updateClients rest node_for srv'
                end
            end
          else updateClients rest node_for srv
      | None => updateClients rest node_for srv
      end
  end.

(** One tick of [setInterval(..., 30000)]. *)
Definition blockTemplateUpdates (node_for : nat -> Backend) (srv : Server) : Server :=
  updateClients (clients srv) node_for srv.

End Timer.

(** The timer of the first variant: it asks the node for its status and
    logs the answer.  Its one request is answered by [node_for 0]. *)
Definition nodeStatusCheck (node_for : nat -> Backend) (srv : Server) : Server :=
  {| heap := heap srv;
     clients := clients srv;
     next_ref := next_ref srv;
     process := snd (V1.checkNodeStatus (node_for 0) (process srv)) |}.

(** What happens to a running server: a connection is accepted, a chunk
    arrives on the socket of a session, a socket ends or fails, the timer
    fires. *)
Inductive Event : Type :=
| Connect (now : string)
| Data (r : nat) (input : list (Line * Backend))
| Close (r : nat)
| Tick (node_for : nat -> Backend).

Section Serve.
Variable fresh : string -> Client.
Variable handle : Backend -> JsVal -> M State JsVal.
Variable timer : (nat -> Backend) -> Server -> Server.

Definition serve_event (e : Event) (srv : Server) : Server :=
  match e with
  | Connect now => snd (onConnection fresh now srv)
  | Data r input => onData handle r input srv
  | Close r => onClose r srv
  | Tick node_for => timer node_for srv
  end.

Fixpoint serve (events : list Event) (srv : Server) : Server :=
  match events with
  | [] => srv
  | e :: rest => serve rest (serve_event e srv)
  end.

End Serve.

(** ** A runtime to run the model on concrete frames *)

(** [Number::toString] on the integers up to [2^53], the numbers that the
    examples below hold; on any other number this instance yields the
    empty text, and no statement below depends on that. *)
Definition integer_to_string (x : float) : string :=
  match Prim2SF x with
  | S754_zero _ => "0"
  | S754_nan => "NaN"
  | S754_infinity s => if s then "-Infinity" else "Infinity"
  | S754_finite s m e =>
      let sign := if s then "-" else "" in
      if (0 <=? e)%Z then
        let v := (Z.pos m * 2 ^ e)%Z in
        if (v <=? 2 ^ 53)%Z then sign +:+ decimal (Z.to_N v) else ""
      else
        let d := (2 ^ (- e))%Z in
        if (Z.pos m mod d =? 0)%Z then sign +:+ decimal (Z.to_N (Z.pos m / d)) else ""
  end.

Definition integer_runtime : JsRuntime := {| number_to_string := integer_to_string |}.

(** * Statements

    The properties that the theorems below prove or refute of the two
    variants, and the concrete nodes and frames they are run on. *)

(** ** Job numbering *)

(** The text after the last dash of a job id. *)
Fixpoint after_last_dash (s : string) : option string :=
  match s with
  | EmptyString => None
  | String c rest =>
      match after_last_dash rest with
      | Some t => Some t
      | None => if Ascii.eqb c "-" then Some rest else None
      end
  end.

(** The counter that a job id embeds, when its last segment is a decimal
    numeral. *)
Definition id_counter (id : string) : option N :=
  match after_last_dash id with
  | Some digits => N.of_uint <$> NilEmpty.uint_of_string digits
  | None => None
  end.

(** A call either returns a job numbered with the incremented counter and
    registers it under its id, or it leaves the job table alone and does
    not lower the counter. *)
Definition numbers_jobs (create : Backend -> JsVal -> M World Job) : Prop :=
  forall node A w,
    match create node A w with
    | (Return job, w') =>
        jobCounter w' = (jobCounter w + 1)%N
        /\ currentJobs w' = <[job_id job := job]> (currentJobs w)
        /\ id_counter (job_id job) = Some (jobCounter w')
        /\ job_algorithm job = A
    | (_, w') =>
        currentJobs w' = currentJobs w
        /\ (jobCounter w <= jobCounter w')%N
    end.

(** Every job issued so far, and every key of the job table, ends with a
    counter that the process counter has reached. *)
Definition numbered_up_to (w : World) (jobs : list Job) : Prop :=
  Forall (fun j => exists c, id_counter (job_id j) = Some c /\ (c <= jobCounter w)%N) jobs
  /\ (forall k j, currentJobs w !! k = Some j ->
        exists c, id_counter k = Some c /\ (c <= jobCounter w)%N).

(** The algorithm names to which [ALGORITHMS] maps. *)
Definition supported_algorithm (a : JsVal) : Prop :=
  a = JStr "progpow" \/ a = JStr "sha256d" \/ a = JStr "randomx".

(** The node reports a verification progress above the threshold. *)
Definition node_synced (node : Backend) : Prop :=
  exists info, getBlockchainInfo node = RpcOk (Some info)
               /\ PrimFloat.ltb 0.999 (verificationprogress info) = true.

(** What the claim says of a job returned after earlier calls. *)
Definition fresh_job (A : JsVal) (issued : list Job) (w : World) (job : Job) : Prop :=
  job_algorithm job = A
  /\ (exists c, id_counter (job_id job) = Some c
                /\ Forall (fun j => exists c', id_counter (job_id j) = Some c'
                                               /\ (c' < c)%N) issued)
  /\ (job_id job ∉ job_id <$> issued)
  /\ currentJobs w !! job_id job = None.

(** ** Concrete nodes and frames *)

Definition sample_template : JsVal :=
  JObj [("previousblockhash", JStr "00ab");
        ("coinbasetxn", JStr "01cd");
        ("version", JNum 4);
        ("bits", JStr "1d00ffff");
        ("curtime", JNum 1700000000);
        ("progpow_header", JStr "aa11");
        ("progpow_mix_hash", JStr "bb22");
        ("merkle_root", JStr "cc33");
        ("randomx_seed", JStr "dd44")].

(** A node at the given verification progress that hands out
    [sample_template] and accepts every block. *)
Definition node_at (progress : float) : Backend :=
  {| getBlockchainInfo :=
       RpcOk (Some {| blocks := JNum 10; headers := JNum 20;
                      verificationprogress := progress |});
     getblocktemplate := RpcOk sample_template;
     submitblock := fun _ => RpcOk JNull |}.

(** A synced node whose template request fails with the given error,
    and a synced node that refuses every block with the given error. *)
Definition node_without_template (err : JsError) : Backend :=
  {| getBlockchainInfo :=
       RpcOk (Some {| blocks := JNum 10; headers := JNum 10;
                      verificationprogress := 1 |});
     getblocktemplate := RpcErr err;
     submitblock := fun _ => RpcOk JNull |}.


(** The object that [JSON.parse] makes of a request line. *)
Definition frame (id : JsVal) (method : string) (params : JsVal) : JsVal :=
  JObj [("id", id); ("method", JStr method); ("params", params)].

(** A second-variant server after three connections: session 0 has
    subscribed to sha256d and authorized, session 1 has subscribed to
    progpow-veil and authorized, session 2 has subscribed to randomx-veil
    only. *)
Definition sample_server : Server :=
  serve V2.new_client (@V2.handleStratumMethod integer_runtime)
    (@blockTemplateUpdates integer_runtime)
    [Connect "2024-01-01 00:00:00";
     Connect "2024-01-01 00:00:01";
     Connect "2024-01-01 00:00:02";
     Data 0 [(Json (frame (JNum 1) "mining.subscribe" (JArr [JStr "sha256d"])), node_at 1);
             (Json (frame (JNum 2) "mining.authorize" (JArr [JStr "alice"; JStr "x"])),
              node_at 1)];
     Data 1 [(Json (frame (JNum 1) "mining.subscribe" (JArr [JStr "progpow-veil"])), node_at 1);
             (Json (frame (JNum 2) "mining.authorize" (JArr [JStr "bob"; JStr "x"])),
              node_at 1)];
     Data 2 [(Json (frame (JNum 1) "mining.subscribe" (JArr [JStr "randomx-veil"])),
              node_at 1)]]
    initial_server.

(** The node's answers during a tick: the template request made for
    session 1 fails, every other one gets [sample_template]. *)
Definition sample_answers (r : nat) : Backend :=
  match r with
  | 1 => node_without_template (mkError (JNum (-9)) "Veil is not connected")
  | _ => node_at 1
  end.

(** ** The claims, as properties of a handler or of a [createMiningJob] *)

(** The claim, for a [createMiningJob]: below the threshold the call
    throws the not-synced error after the status request alone, and the job
    table and the counter stay as they were. *)
Definition sync_gated `{JsRuntime} (create : Backend -> JsVal -> M World Job) : Prop :=
  forall node A w info,
    truthy A = true ->
    getBlockchainInfo node = RpcOk (Some info) ->
    PrimFloat.ltb 0.999 (verificationprogress info) = false ->
    create node A w =
      (Throw (Thrown (Error (V1.not_synced_message (verificationprogress info)))),
       {| jobCounter := jobCounter w;
          currentJobs := currentJobs w;
          rpc := rpc w ++ [GetBlockchainInfo] |}).


(** The process state once the given requests are sent as well. *)
Definition world_sent (w : World) (calls : list RpcCall) : World :=
  {| jobCounter := jobCounter w; currentJobs := currentJobs w; rpc := rpc w ++ calls |}.


(** The buffer that [Buffer.from('00'.repeat(4), 'hex')] holds. *)
Definition zero_nonce : list N := [0; 0; 0; 0]%N.

(** The session of the first variant once the two frames of a subscribe
    are written. *)
Definition V1_subscribed (id : JsVal) (c : Client) : Client :=
  socket_write (V1.subscribeResponse id zero_nonce)
    (socket_write (set_difficulty_frame (JNum 0.002))
       (set_extraNonce zero_nonce
          (set_difficulty (JNum 0.002) (set_algorithm (JStr "progpow") c)))).

(** The session of the second variant once a subscribe has bound the
    entry [a] of [ALGORITHMS]. *)
Definition V2_subscribed (a : JsVal) (c : Client) : Client :=
  socket_write (set_difficulty_frame (JNum (getDifficultyForAlgo a)))
    (set_difficulty (JNum (getDifficultyForAlgo a)) (set_algorithm a c)).





(** The session of the second variant once an authorize has recorded
    the first entry of its params. *)
Definition V2_authorized (user : JsVal) (c : Client) : Client :=
  set_wallet user (set_authorized true c).

(** The line is a request for the given method. *)
Definition line_method_is (name : string) (line : Line) : bool :=
  match line with
  | Json message =>
      match destructure_message message with
      | Some (_, method, _) => is_str method name
      | None => false
      end
  | _ => false
  end.

(** The lines that the claim speaks of. *)
Definition subscribe_or_authorize (line : Line) : Prop :=
  line_method_is "mining.subscribe" line = true
  \/ line_method_is "mining.authorize" line = true.

(** The claim, for a variant: once the lines received by a new session
    have bound its algorithm, no later subscribe or authorize changes it. *)
Definition algorithm_bound_once
    (handle : Backend -> JsVal -> M State JsVal) (fresh : string -> Client) : Prop :=
  forall now w before after,
    let s := onLines handle before (fresh now, w) in
    algorithm (fst s) <> JNull ->
    Forall (fun l => subscribe_or_authorize (fst l)) after ->
    algorithm (fst (onLines handle after s)) = algorithm (fst s).

(** A frame whose method is mining.notify. *)
Definition is_notify (f : JsVal) : bool :=
  is_str (field f "method") "mining.notify".



(** ** The job table *)

(** The job table holds the issued jobs and nothing else: their ids are
    pairwise distinct, each job is found under its id, and the table has as
    many entries as jobs were issued. *)
Definition table_of (w : World) (jobs : list Job) : Prop :=
  numbered_up_to w jobs
  /\ NoDup (job_id <$> jobs)
  /\ Forall (fun j => currentJobs w !! job_id j = Some j) jobs
  /\ size (currentJobs w) = length jobs.

(** The requests that a call adds to the log. *)
Definition sends (w w' : World) (calls : list RpcCall) : Prop :=
  rpc w' = (rpc w ++ calls)%list.

(** The test of the first variant on an error of the template request. *)
Definition not_ready (err : JsError) : bool :=
  is_num (err_code err) (-10)
  || includes (err_message err) "syncing"
  || includes (err_message err) "loading".

(** ** Frames and requests *)

(** The id of the request that a line holds; null when it holds none. *)
Definition line_id (line : Line) : JsVal :=
  match line with
  | Json message =>
      match destructure_message message with
      | Some (id, _, _) => id
      | None => JNull
      end
  | _ => JNull
  end.

(** The frames written for a line: at most [bound] of them, each
    carrying the id of the line's request or the id null. *)
Definition answers_line (line : Line) (bound : nat) (before after : Client) : Prop :=
  exists frames,
    socket after = (socket before ++ frames)%list
    /\ length frames <= bound
    /\ Forall (fun f => field f "id" = line_id line \/ field f "id" = JNull) frames.

(** ** The registry *)

(** The session [r] exists and is authorized: the test of the timer's
    loop. *)
Definition served (h : gmap nat Client) (r : nat) : bool :=
  match h !! r with
  | Some c => authorized c
  | None => false
  end.

(** The node's answer lets [createMiningJob] settle, with a job or with
    an error. *)
Definition settles (node : Backend) : Prop :=
  match getblocktemplate node with
  | RpcOk t => is_nullish t = false
  | RpcErr _ => True
  end.

Definition has_template (node : Backend) : bool :=
  match getblocktemplate node with
  | RpcOk _ => true
  | RpcErr _ => false
  end.

(** The registry holds each reference once, every registered reference
    has its session object, and no reference in use is one that a later
    connection will get. *)
Definition registry_ok (srv : Server) : Prop :=
  NoDup (clients srv)
  /\ (forall r, r ∈ clients srv -> is_Some (heap srv !! r))
  /\ (forall r, is_Some (heap srv !! r) -> r < next_ref srv).

(** The session has no wallet and was never sent a job. *)
Definition kept_out (c : Client) : Prop :=
  wallet c = JNull /\ Forall (fun f => is_notify f = false) (socket c).

(** Between the states [s] and [s'] no job was made and no job frame
    was written to the session. *)
Definition no_job (s s' : State) : Prop :=
  jobCounter (snd s') = jobCounter (snd s)
  /\ currentJobs (snd s') = currentJobs (snd s)
  /\ exists frames,
       socket (fst s') = (socket (fst s) ++ frames)%list
       /\ Forall (fun f => is_notify f = false) frames.

(** ** Proof steps *)

(** Unfolds the monad so that a handler call becomes a term over its
    inputs. *)
Ltac run :=
  unfold mbind, M_bind, bind, mret, M_ret, ret, raise, throw, pending,
    try_catch, gets, modify, the_client, update_client, write, in_world,
    send_rpc, pre_increment_jobCounter, currentJobs_set in *;
  simpl in *.

(** Settles a goal [answers_line] with the frames written. *)
Ltac frames_are fs :=
  exists fs; split;
  [simpl; rewrite <- ?app_assoc; try rewrite app_nil_r; reflexivity
  |split; [simpl; lia
          |repeat (constructor; [first [left; reflexivity | right; reflexivity]|]);
           constructor]].

(** * Properties *)

(** ** Job ids *)

Lemma after_last_dash_digits (u : Decimal.uint) :
  after_last_dash (NilEmpty.string_of_uint u) = None.
Proof.
  induction u; simpl; try rewrite IHu; reflexivity.
Qed.

Lemma after_last_dash_append (s d : string) :
  after_last_dash d = None ->
  after_last_dash (s +:+ "-" +:+ d) = Some d.
Proof.
  intros Hd. induction s as [|c s IH].
  - change ("" +:+ "-" +:+ d) with (String "-" d). simpl. now rewrite Hd.
  - change (String c s +:+ "-" +:+ d) with (String c (s +:+ "-" +:+ d)).
    simpl. now rewrite IH.
Qed.

(** The counter written at the end of a job id is read back from it,
    whatever text stands before the dash. *)
Lemma id_counter_job_id (s : string) (n : N) :
  id_counter (s +:+ "-" +:+ decimal n) = Some n.
Proof.
  unfold id_counter, decimal.
  rewrite after_last_dash_append by apply after_last_dash_digits.
  rewrite NilEmpty.usu. simpl. f_equal. apply DecimalN.Unsigned.of_to.
Qed.

(** ** What one call of [createMiningJob] does to the state *)

Lemma V1_numbers_jobs `{JsRuntime} : numbers_jobs V1.createMiningJob.
Proof.
  intros node A w. unfold V1.createMiningJob, V1.checkNodeStatus.
  destruct (truthy A); run; [|split; [reflexivity | lia]].
  destruct (getBlockchainInfo node) as [err|[info|]]; run;
    try (split; [reflexivity | lia]).
  destruct (PrimFloat.ltb 0.999 (verificationprogress info)); run;
    [|split; [reflexivity | lia]].
  destruct (getblocktemplate node) as [err|t]; run.
  - destruct (is_num (err_code err) (-10) || includes (err_message err) "syncing"
              || includes (err_message err) "loading");
      run; (split; [reflexivity | lia]).
  - destruct (truthy t); run; [|split; [reflexivity | lia]].
    repeat split. apply id_counter_job_id.
Qed.

Lemma V2_numbers_jobs `{JsRuntime} : numbers_jobs V2.createMiningJob.
Proof.
  intros node A w. unfold V2.createMiningJob. run.
  destruct (getblocktemplate node) as [err|t]; run; [split; [reflexivity | lia]|].
  destruct (is_nullish t); run; [split; [reflexivity | lia]|].
  repeat split. apply id_counter_job_id.
Qed.

Lemma supported_truthy (a : JsVal) : supported_algorithm a -> truthy a = true.
Proof. intros [-> | [-> | ->]]; reflexivity. Qed.


Lemma V1_createMiningJob_returns `{JsRuntime} node A w t :
  truthy A = true ->
  node_synced node ->
  getblocktemplate node = RpcOk t ->
  truthy t = true ->
  V1.createMiningJob node A w =
    (Return (build_job A (jobCounter w + 1) t),
     {| jobCounter := jobCounter w + 1;
        currentJobs :=
          <[job_id (build_job A (jobCounter w + 1) t) := build_job A (jobCounter w + 1) t]>
            (currentJobs w);
        rpc := (rpc w ++ [GetBlockchainInfo]) ++ [GetBlockTemplate template_options] |}).
Proof.
  intros HA (info & Hinfo & Hsync) Ht Htruthy.
  unfold V1.createMiningJob, V1.checkNodeStatus. rewrite HA. run.
  rewrite Hinfo. run. rewrite Hsync. run. rewrite Ht. run. rewrite Htruthy. run.
  reflexivity.
Qed.

Lemma V2_createMiningJob_returns `{JsRuntime} node A w t :
  getblocktemplate node = RpcOk t ->
  is_nullish t = false ->
  V2.createMiningJob node A w =
    (Return (build_job A (jobCounter w + 1) t),
     {| jobCounter := jobCounter w + 1;
        currentJobs :=
          <[job_id (build_job A (jobCounter w + 1) t) := build_job A (jobCounter w + 1) t]>
            (currentJobs w);
        rpc := rpc w ++ [GetBlockTemplate template_options] |}).
Proof.
  intros Ht Hnull. unfold V2.createMiningJob. run. rewrite Ht. run.
  rewrite Hnull. run. reflexivity.
Qed.


(** No call lowers the counter. *)
Lemma jobCounter_monotone create node A w :
  numbers_jobs create ->
  (jobCounter w <= jobCounter (snd (create node A w)))%N.
Proof.
  intros Hc. specialize (Hc node A w).
  destruct (create node A w) as [[job| |] w']; simpl.
  - destruct Hc as (Hn & _). lia.
  - apply Hc.
  - apply Hc.
Qed.

Lemma V1_sync_gated `{JsRuntime} : sync_gated V1.createMiningJob.
Proof.
  intros node A w info HA Hinfo Hlow.
  unfold V1.createMiningJob, V1.checkNodeStatus. rewrite HA. run.
  rewrite Hinfo. run. rewrite Hlow. run. reflexivity.
Qed.

(** ** Runs of calls: every issued job is numbered at most by the counter *)

Lemma numbered_up_to_initial : numbered_up_to initial_world [].
Proof.
  split; [constructor|]. intros k j Hk. simpl in Hk.
  rewrite lookup_empty in Hk. discriminate.
Qed.

Section Issue.
Variable create : Backend -> JsVal -> M World Job.
Hypothesis create_numbers : numbers_jobs create.

Lemma numbered_up_to_step node A w prior :
  numbered_up_to w prior ->
  match create node A w with
  | (Return job, w') => numbered_up_to w' (prior ++ [job])
  | (_, w') => numbered_up_to w' prior
  end.
Proof.
  intros [Hjobs Htable]. pose proof (create_numbers node A w) as Hc.
  assert (Hweak : forall w', (jobCounter w <= jobCounter w')%N ->
            Forall (fun j => exists c, id_counter (job_id j) = Some c
                                       /\ (c <= jobCounter w')%N) prior).
  { intros w' Hle. eapply Forall_impl; [exact Hjobs|].
    intros j (c & Hc1 & Hc2). exists c. split; [exact Hc1 | lia]. }
  destruct (create node A w) as [[job| |] w'].
  - destruct Hc as (Hn & Hm & Hid & _). split.
    + apply Forall_app. split; [apply Hweak; lia|].
      constructor; [|constructor]. exists (jobCounter w'). split; [exact Hid | lia].
    + intros k j Hk. rewrite Hm in Hk.
      destruct (decide (job_id job = k)) as [<-|Hne].
      * exists (jobCounter w'). split; [exact Hid | lia].
      * rewrite lookup_insert_ne in Hk by exact Hne.
        destruct (Htable k j Hk) as (c & Hc1 & Hc2). exists c. split; [exact Hc1 | lia].
  - destruct Hc as (Hm & Hle). split; [now apply Hweak|].
    intros k j Hk. rewrite Hm in Hk.
    destruct (Htable k j Hk) as (c & Hc1 & Hc2). exists c. split; [exact Hc1 | lia].
  - destruct Hc as (Hm & Hle). split; [now apply Hweak|].
    intros k j Hk. rewrite Hm in Hk.
    destruct (Htable k j Hk) as (c & Hc1 & Hc2). exists c. split; [exact Hc1 | lia].
Qed.

Lemma numbered_up_to_issue calls : forall w prior jobs w',
  numbered_up_to w prior ->
  issue create calls w = (jobs, w') ->
  numbered_up_to w' (prior ++ jobs) /\ (jobCounter w <= jobCounter w')%N.
Proof.
  induction calls as [|[node A] rest IH]; intros w prior jobs w' Hinv Hrun; simpl in Hrun.
  - injection Hrun as <- <-. rewrite app_nil_r. split; [exact Hinv | lia].
  - pose proof (numbered_up_to_step node A w prior Hinv) as Hstep.
    pose proof (create_numbers node A w) as Hc.
    destruct (create node A w) as [[job| |] w1].
    + destruct (issue create rest w1) as [jobs1 w2] eqn:Hrest.
      injection Hrun as <- <-.
      destruct (IH _ _ _ _ Hstep Hrest) as [Hinv2 Hle].
      rewrite <- app_assoc in Hinv2. split; [exact Hinv2|].
      destruct Hc as (Hn & _). lia.
    + destruct (IH _ _ _ _ Hstep Hrun) as [Hinv2 Hle]. split; [exact Hinv2|].
      destruct Hc as (_ & Hn). lia.
    + destruct (IH _ _ _ _ Hstep Hrun) as [Hinv2 Hle]. split; [exact Hinv2|].
      destruct Hc as (_ & Hn). lia.
Qed.

(** A job returned after any run of calls carries the requested
    algorithm and a counter above the counter of every job issued before,
    and its id is not in use. *)
Lemma issue_then_create calls issued w node A job w' :
  issue create calls initial_world = (issued, w) ->
  create node A w = (Return job, w') ->
  job_algorithm job = A
  /\ id_counter (job_id job) = Some (jobCounter w + 1)%N
  /\ Forall (fun j => exists c, id_counter (job_id j) = Some c
                                /\ (c < jobCounter w + 1)%N) issued
  /\ (job_id job ∉ job_id <$> issued)
  /\ currentJobs w !! job_id job = None
  /\ jobCounter w' = (jobCounter w + 1)%N.
Proof.
  intros Hrun Hcall.
  destruct (numbered_up_to_issue calls _ [] _ _ numbered_up_to_initial Hrun)
    as [[Hjobs Htable] _]. simpl in Hjobs.
  pose proof (create_numbers node A w) as Hc. rewrite Hcall in Hc.
  destruct Hc as (Hn & Hm & Hid & Halg). rewrite Hn in Hid.
  assert (Hbelow : Forall (fun j => exists c, id_counter (job_id j) = Some c
                                /\ (c < jobCounter w + 1)%N) issued).
  { eapply Forall_impl; [exact Hjobs|]. intros j (c & Hc1 & Hc2).
    exists c. split; [exact Hc1 | lia]. }
  repeat split; try assumption.
  - intros Hin. apply list_elem_of_fmap in Hin as (j & Heq & Hj).
    rewrite Forall_forall in Hbelow.
    destruct (Hbelow j Hj) as (c & Hc1 & Hc2).
    rewrite <- Heq, Hid in Hc1. injection Hc1 as <-. lia.
  - destruct (currentJobs w !! job_id job) as [j|] eqn:Hk; [|reflexivity].
    destruct (Htable _ _ Hk) as (c & Hc1 & Hc2).
    rewrite Hid in Hc1. injection Hc1 as <-. lia.
Qed.

End Issue.

(** ** The cases of the handlers *)





Lemma V2_dispatch_subscribe `{JsRuntime} node message id params :
  destructure_message message = Some (id, JStr "mining.subscribe", params) ->
  V2.handleStratumMethod node message
  = try_catch (V2.subscribe id params) (internal_error id).
Proof. intros Hm. unfold V2.handleStratumMethod. rewrite Hm. reflexivity. Qed.

Lemma V2_dispatch_authorize `{JsRuntime} node message id params :
  destructure_message message = Some (id, JStr "mining.authorize", params) ->
  V2.handleStratumMethod node message
  = try_catch (V2.authorize node id params) (internal_error id).
Proof. intros Hm. unfold V2.handleStratumMethod. rewrite Hm. reflexivity. Qed.



Lemma ALGORITHMS_values (key : string) (a : JsVal) :
  assoc key ALGORITHMS = Some a -> supported_algorithm a.
Proof.
  unfold ALGORITHMS, supported_algorithm. cbn [assoc].
  destruct (String.eqb "progpow-veil" key);
    [intros Heq; injection Heq as Heq; subst a; auto|].
  destruct (String.eqb "sha256d" key);
    [intros Heq; injection Heq as Heq; subst a; auto|].
  destruct (String.eqb "randomx-veil" key);
    [intros Heq; injection Heq as Heq; subst a; auto|].
  discriminate.
Qed.

Lemma V1_subscribe_runs `{JsRuntime} node id params items c w :
  iterate params = Some items ->
  V1.subscribe node id params (c, w)
  = match V1.createMiningJob node (JStr "progpow") w with
    | (Return job, w') =>
        (Return JNull, (socket_write (V1.miningNotify job) (V1_subscribed id c), w'))
    | (Throw _, w') => (Return JNull, (V1_subscribed id c, w'))
    | (Pending, w') => (Pending, (V1_subscribed id c, w'))
    end.
Proof.
  intros Hit. unfold V1.subscribe, V1.sendMiningJob. rewrite Hit.
  remember (V1.createMiningJob node) as create eqn:Hcreate. run.
  destruct (create (JStr "progpow") w) as [[job| |] w']; reflexivity.
Qed.

Lemma V1_subscribe_not_iterable `{JsRuntime} node id params s :
  iterate params = None ->
  V1.subscribe node id params s = (Throw TypeError, s).
Proof. intros Hit. unfold V1.subscribe. rewrite Hit. reflexivity. Qed.

Lemma V1_authorize_runs id params c w :
  V1.authorize id params (c, w)
  = (if is_nullish params then Throw TypeError else Return JNull,
     (socket_write (true_response id) c, w)).
Proof. unfold V1.authorize. run. destruct (is_nullish params); reflexivity. Qed.

Lemma V1_submit_forwards `{JsRuntime} node id params items c w :
  iterate params = Some items ->
  let sent :=
    if is_str (algorithm c) "progpow"
    then [nth_elem items 3; nth_elem items 4; nth_elem items 2]
    else [nth_elem items 3; nth_elem items 2] in
  V1.submit node id params (c, w)
  = (Return match submitblock node sent with
            | RpcOk _ => true_response id
            | RpcErr err => error_response id (JStr (err_message err))
            end,
     (c, world_sent w [SubmitBlock sent])).
Proof.
  intros Hit. unfold V1.submit, V1.submitWork. rewrite Hit. run.
  destruct (is_str (algorithm c) "progpow"); run;
    match goal with |- context [submitblock node ?p] =>
      destruct (submitblock node p) end; reflexivity.
Qed.

Lemma V1_submit_not_iterable `{JsRuntime} node id params s :
  iterate params = None ->
  V1.submit node id params s = (Throw TypeError, s).
Proof. intros Hit. unfold V1.submit. rewrite Hit. reflexivity. Qed.


Lemma V2_subscribe_runs `{JsRuntime} id params items c w :
  iterate params = Some items ->
  V2.subscribe id params (c, w)
  = if truthy (ALGORITHMS_get (nth_elem items 0))
    then (Return (V2.subscribeResponse id (nth_elem items 1)),
          (V2_subscribed (ALGORITHMS_get (nth_elem items 0)) c, w))
    else (Return (error_response id (JStr "Unsupported algorithm")), (c, w)).
Proof.
  intros Hit. unfold V2.subscribe. rewrite Hit.
  destruct (truthy (ALGORITHMS_get (nth_elem items 0))); reflexivity.
Qed.

Lemma V2_authorize_runs `{JsRuntime} node id params items c w :
  iterate params = Some items ->
  V2.authorize node id params (c, w)
  = let c1 := V2_authorized (nth_elem items 0) c in
    match V2.createMiningJob node (algorithm c) w with
    | (Return job, w') =>
        (Return (true_response id), (socket_write (V2.miningNotify c1 job) c1, w'))
    | (Throw _, w') => (Return (true_response id), (c1, w'))
    | (Pending, w') => (Pending, (c1, w'))
    end.
Proof.
  intros Hit. unfold V2.authorize, V2.sendMiningJob. rewrite Hit.
  remember (V2.createMiningJob node) as create eqn:Hcreate. run.
  destruct (create (algorithm c) w) as [[job| |] w']; reflexivity.
Qed.

Lemma V2_authorize_not_iterable `{JsRuntime} node id params s :
  iterate params = None ->
  V2.authorize node id params s = (Throw TypeError, s).
Proof. intros Hit. unfold V2.authorize. rewrite Hit. reflexivity. Qed.




(** A submit changes nothing of the session object. *)
Lemma V2_submit_client `{JsRuntime} node id params c w :
  fst (snd (V2.submit node id params (c, w))) = c.
Proof.
  unfold V2.submit, V2.submitWork. run.
  destruct (authorized c); run; [|reflexivity].
  destruct (iterate params) as [items|]; run; [|reflexivity].
  destruct (is_str (algorithm c) "progpow"); run.
  { match goal with |- context [submitblock node ?p] =>
      destruct (submitblock node p) end; reflexivity. }
  destruct (is_str (algorithm c) "sha256d"); run.
  { match goal with |- context [submitblock node ?p] =>
      destruct (submitblock node p) end; reflexivity. }
  destruct (is_str (algorithm c) "randomx"); run; [|reflexivity].
  match goal with |- context [submitblock node ?p] =>
    destruct (submitblock node p) end; reflexivity.
Qed.


(** ** What the lines of a session can change *)

(** No message changes [authorized] or [wallet], and the only value
    that a message binds as the algorithm is progpow. *)
Lemma V1_handle_fields `{JsRuntime} node message c w :
  let c' := fst (snd (V1.handleStratumMethod node message (c, w))) in
  authorized c' = authorized c
  /\ wallet c' = wallet c
  /\ (algorithm c' = algorithm c \/ algorithm c' = JStr "progpow").
Proof.
  unfold V1.handleStratumMethod.
  destruct (destructure_message message) as [[[id method] params]|]; [|simpl; auto].
  unfold try_catch.
  destruct (is_str method "mining.subscribe").
  { destruct (iterate params) as [items|] eqn:Hit.
    - rewrite (V1_subscribe_runs node id params items c w Hit).
      destruct (V1.createMiningJob node (JStr "progpow") w) as [[job| |] w'];
        simpl; auto.
    - rewrite (V1_subscribe_not_iterable node id params (c, w) Hit). simpl. auto. }
  destruct (is_str method "mining.authorize").
  { rewrite V1_authorize_runs. destruct (is_nullish params); simpl; auto. }
  destruct (is_str method "mining.submit").
  { destruct (iterate params) as [items|] eqn:Hit.
    - rewrite (V1_submit_forwards node id params items c w Hit). simpl. auto.
    - rewrite (V1_submit_not_iterable node id params (c, w) Hit). simpl. auto. }
  simpl. auto.
Qed.

(** What the connection adds to a handler call is a write to the
    socket. *)
Lemma onLine_json_fields handle message c w :
  let c' := fst (onLine handle (Json message) (c, w)) in
  let c1 := fst (snd (handle message (c, w))) in
  authorized c' = authorized c1 /\ wallet c' = wallet c1
  /\ algorithm c' = algorithm c1 /\ difficulty c' = difficulty c1
  /\ extraNonce c' = extraNonce c1.
Proof.
  simpl.
  destruct (handle message (c, w)) as [[response|x|] [c1 w1]]; simpl; auto.
  destruct (truthy response); simpl; auto.
Qed.

Lemma V1_onLine_fields `{JsRuntime} node line c w :
  let c' := fst (onLine (V1.handleStratumMethod node) line (c, w)) in
  authorized c' = authorized c
  /\ wallet c' = wallet c
  /\ (algorithm c' = algorithm c \/ algorithm c' = JStr "progpow").
Proof.
  destruct line as [| |message].
  - simpl. auto.
  - simpl. auto.
  - destruct (onLine_json_fields (V1.handleStratumMethod node) message c w)
      as (Ha & Hw & Hg & _).
    pose proof (V1_handle_fields node message c w) as Hh.
    cbv zeta in *. rewrite Ha, Hw, Hg. exact Hh.
Qed.

Lemma V1_onLines_fields `{JsRuntime} input : forall c w,
  let c' := fst (onLines V1.handleStratumMethod input (c, w)) in
  authorized c' = authorized c
  /\ wallet c' = wallet c
  /\ (algorithm c' = algorithm c \/ algorithm c' = JStr "progpow").
Proof.
  induction input as [|[line node] rest IH]; intros c w; simpl; [auto|].
  pose proof (V1_onLine_fields node line c w) as Hstep. simpl in Hstep.
  destruct (onLine (V1.handleStratumMethod node) line (c, w)) as [c1 w1].
  simpl in Hstep. destruct Hstep as (Ha & Hw & Hg).
  destruct (IH c1 w1) as (Ha' & Hw' & Hg'). rewrite Ha', Hw', Ha, Hw.
  repeat split. destruct Hg' as [-> | ->]; auto.
Qed.



(** ** The claims on each variant *)


Lemma V1_algorithm_bound_once `{JsRuntime} :
  algorithm_bound_once V1.handleStratumMethod V1.new_client.
Proof.
  intros now w before after s Hbound _.
  destruct (V1_onLines_fields before (V1.new_client now) w) as (_ & _ & Hbefore).
  fold s in Hbefore. simpl in Hbefore.
  destruct Hbefore as [Hnull | Hprogpow]; [contradiction|].
  destruct s as [c1 w1]. simpl in *.
  destruct (V1_onLines_fields after c1 w1) as (_ & _ & [Hsame | Hafter]).
  - exact Hsame.
  - now rewrite Hafter, Hprogpow.
Qed.



(** ** C1: the gate on submit *)




(** ** C2: the sync check *)

(** The second variant at progress 0.5: the call returns a job and
    registers it. *)
Lemma C2_counterexample : ~ @sync_gated integer_runtime (@V2.createMiningJob integer_runtime).
Proof.
  intros Hgate.
  specialize (Hgate (node_at 0.5) (JStr "progpow") initial_world
                {| blocks := JNum 10; headers := JNum 20; verificationprogress := 0.5 |}
                eq_refl eq_refl eq_refl).
  vm_compute in Hgate. discriminate Hgate.
Qed.

(** C2 (amended). In the first variant, for every algorithm (a truthy
    value), createMiningJob first asks the node for its status and, when the
    verification progress is not greater than 0.999, fails with the
    not-synced error carrying that progress, sends no template request and
    adds no job; so it does at progress 0.5.  The second variant makes no
    sync check: whatever the progress, a call that the node answers with a
    template returns a job and registers it, and the call never asks for the
    status. *)
Theorem C2_sync_check_first_variant_only `{JsRuntime} :
  sync_gated V1.createMiningJob
  /\ (forall node A w info,
        truthy A = true ->
        getBlockchainInfo node = RpcOk (Some info) ->
        verificationprogress info = 0.5%float ->
        exists e w',
          V1.createMiningJob node A w = (Throw (Thrown e), w')
          /\ err_message e
             = "Node is not fully synced (50.00%). Please wait for sync completion."
          /\ currentJobs w' = currentJobs w)
  /\ (forall node A w t,
        getblocktemplate node = RpcOk t ->
        is_nullish t = false ->
        exists job w',
          V2.createMiningJob node A w = (Return job, w')
          /\ currentJobs w' = <[job_id job := job]> (currentJobs w)
          /\ rpc w' = (rpc w ++ [GetBlockTemplate template_options])%list).
Proof.
  split; [apply V1_sync_gated | split].
  - intros node A w info HA Hinfo Hhalf.
    eexists _, _. split.
    + apply V1_sync_gated; eauto. rewrite Hhalf. reflexivity.
    + rewrite Hhalf. split; reflexivity.
  - intros node A w t Ht Hnull. eexists _, _. split.
    + apply V2_createMiningJob_returns; eauto.
    + split; reflexivity.
Qed.

Lemma C2_sync_check_first_variant_only_witness :
  @V1.createMiningJob integer_runtime (node_at 0.5) (JStr "sha256d") initial_world =
    (Throw (Thrown (Error "Node is not fully synced (50.00%). Please wait for sync completion.")),
     {| jobCounter := 0; currentJobs := ∅; rpc := [GetBlockchainInfo] |}).
Proof.
  apply (proj1 (@C2_sync_check_first_variant_only integer_runtime)
           (node_at 0.5) (JStr "sha256d") initial_world
           {| blocks := JNum 10; headers := JNum 20; verificationprogress := 0.5 |});
    reflexivity.
Defined.

(** ** C3: job counters *)

(** C3. In both variants, after any sequence of earlier calls of
    createMiningJob, a call for a supported algorithm A that the node
    answers (synced, in the first variant, and with a template) returns a
    job whose algorithm is A and whose id ends with a counter strictly above
    the counter of every job issued before; the id is the id of no earlier
    job and of no entry of the job table, and no call ever lowers the one
    counter that all sessions share. *)
Theorem C3_createMiningJob_fresh_counter `{JsRuntime} :
  (forall calls issued w node A t,
      supported_algorithm A ->
      issue V1.createMiningJob calls initial_world = (issued, w) ->
      node_synced node ->
      getblocktemplate node = RpcOk t ->
      truthy t = true ->
      exists job w',
        V1.createMiningJob node A w = (Return job, w') /\ fresh_job A issued w job)
  /\ (forall calls issued w node A t,
      supported_algorithm A ->
      issue V2.createMiningJob calls initial_world = (issued, w) ->
      getblocktemplate node = RpcOk t ->
      is_nullish t = false ->
      exists job w',
        V2.createMiningJob node A w = (Return job, w') /\ fresh_job A issued w job)
  /\ (forall node A w,
      (jobCounter w <= jobCounter (snd (V1.createMiningJob node A w)))%N
      /\ (jobCounter w <= jobCounter (snd (V2.createMiningJob node A w)))%N).
Proof.
  split; [|split].
  - intros calls issued w node A t HA Hrun Hsync Ht Htruthy.
    eexists _, _. split.
    + apply V1_createMiningJob_returns; eauto using supported_truthy.
    + destruct (issue_then_create _ V1_numbers_jobs calls issued w node A _ _ Hrun
                  (V1_createMiningJob_returns node A w t (supported_truthy A HA)
                     Hsync Ht Htruthy))
        as (Halg & Hid & Hbelow & Hnew & Hfree & _).
      repeat split; eauto.
  - intros calls issued w node A t HA Hrun Ht Hnull.
    eexists _, _. split.
    + apply V2_createMiningJob_returns; eauto.
    + destruct (issue_then_create _ V2_numbers_jobs calls issued w node A _ _ Hrun
                  (V2_createMiningJob_returns node A w t Ht Hnull))
        as (Halg & Hid & Hbelow & Hnew & Hfree & _).
      repeat split; eauto.
  - intros node A w. split; apply jobCounter_monotone.
    + apply V1_numbers_jobs.
    + apply V2_numbers_jobs.
Qed.

Lemma C3_createMiningJob_fresh_counter_witness :
  let r1 := issue (@V1.createMiningJob integer_runtime)
              [(node_at 1, JStr "sha256d"); (node_at 0.5, JStr "randomx")] initial_world in
  let r2 := issue (@V2.createMiningJob integer_runtime)
              [(node_at 1, JStr "sha256d"); (node_at 0.5, JStr "randomx")] initial_world in
  (exists job w',
      @V1.createMiningJob integer_runtime (node_at 1) (JStr "progpow") (snd r1)
        = (Return job, w')
      /\ fresh_job (JStr "progpow") (fst r1) (snd r1) job)
  /\ (exists job w',
      @V2.createMiningJob integer_runtime (node_at 0.5) (JStr "progpow") (snd r2)
        = (Return job, w')
      /\ fresh_job (JStr "progpow") (fst r2) (snd r2) job).
Proof.
  intros r1 r2. split.
  - apply (proj1 (@C3_createMiningJob_fresh_counter integer_runtime)
             [(node_at 1, JStr "sha256d"); (node_at 0.5, JStr "randomx")]
             (fst r1) (snd r1) (node_at 1) (JStr "progpow") sample_template).
    + left. reflexivity.
    + apply surjective_pairing.
    + eexists. split; reflexivity.
    + reflexivity.
    + reflexivity.
  - apply (proj1 (proj2 (@C3_createMiningJob_fresh_counter integer_runtime))
             [(node_at 1, JStr "sha256d"); (node_at 0.5, JStr "randomx")]
             (fst r2) (snd r2) (node_at 0.5) (JStr "progpow") sample_template).
    + left. reflexivity.
    + apply surjective_pairing.
    + reflexivity.
    + reflexivity.
Defined.

(** ** C4: the parameters of submitblock *)



(** ** C5: validation of the requested algorithm *)




(** ** C6: rebinding *)

(** In the second variant a second subscribe, for sha256d, rebinds a
    session that the first subscribe bound to progpow. *)
Lemma C6_counterexample :
  ~ algorithm_bound_once (@V2.handleStratumMethod integer_runtime) V2.new_client.
Proof.
  intros Honce.
  specialize (Honce "2024-01-01 00:00:00" initial_world
                [(Json (frame (JNum 1) "mining.subscribe" (JArr [JStr "progpow-veil"])),
                  node_at 1)]
                [(Json (frame (JNum 2) "mining.subscribe" (JArr [JStr "sha256d"])),
                  node_at 1)]).
  cbv zeta in Honce.
  assert (Hbound : algorithm
            (fst (onLines (@V2.handleStratumMethod integer_runtime)
                    [(Json (frame (JNum 1) "mining.subscribe" (JArr [JStr "progpow-veil"])),
                      node_at 1)]
                    (V2.new_client "2024-01-01 00:00:00", initial_world))) <> JNull).
  { vm_compute. discriminate. }
  assert (Hlines : Forall (fun l : Line * Backend => subscribe_or_authorize (fst l))
            [(Json (frame (JNum 2) "mining.subscribe" (JArr [JStr "sha256d"])),
              node_at 1)]).
  { constructor; [|constructor]. left. reflexivity. }
  specialize (Honce Hbound Hlines). vm_compute in Honce. discriminate Honce.
Qed.

(** C6 (amended). In the first variant, once the lines received by a
    new session have bound its algorithm, no later mining.subscribe or
    mining.authorize changes it (a subscribe binds progpow again).  In the
    second variant no mining.authorize changes the session's algorithm, but
    a later mining.subscribe whose requested name is a key of ALGORITHMS
    binds the session to that key's algorithm, whatever was bound before. *)
Theorem C6_algorithm_rebinding `{JsRuntime} :
  algorithm_bound_once V1.handleStratumMethod V1.new_client
  /\ (forall node message id params c w,
        destructure_message message = Some (id, JStr "mining.authorize", params) ->
        algorithm (fst (onLine (V2.handleStratumMethod node) (Json message) (c, w)))
        = algorithm c)
  /\ (forall node message id params items a c w,
        destructure_message message = Some (id, JStr "mining.subscribe", params) ->
        iterate params = Some items ->
        assoc (ToString (nth_elem items 0)) ALGORITHMS = Some a ->
        algorithm (fst (onLine (V2.handleStratumMethod node) (Json message) (c, w))) = a).
Proof.
  split; [apply V1_algorithm_bound_once | split].
  - intros node message id params c w Hm.
    destruct (onLine_json_fields (V2.handleStratumMethod node) message c w)
      as (_ & _ & Hg & _). cbv zeta in Hg. rewrite Hg.
    rewrite (V2_dispatch_authorize _ _ _ _ Hm). unfold try_catch.
    destruct (iterate params) as [items|] eqn:Hit.
    + rewrite (V2_authorize_runs node id params items c w Hit). cbv zeta.
      destruct (V2.createMiningJob node (algorithm c) w) as [[job| |] w']; reflexivity.
    + rewrite (V2_authorize_not_iterable node id params (c, w) Hit). reflexivity.
  - intros node message id params items a c w Hm Hit Hkey.
    destruct (onLine_json_fields (V2.handleStratumMethod node) message c w)
      as (_ & _ & Hg & _). cbv zeta in Hg. rewrite Hg.
    rewrite (V2_dispatch_subscribe _ _ _ _ Hm). unfold try_catch.
    rewrite (V2_subscribe_runs id params items c w Hit).
    unfold ALGORITHMS_get. rewrite Hkey.
    rewrite (supported_truthy a (ALGORITHMS_values _ _ Hkey)). reflexivity.
Qed.

Lemma C6_algorithm_rebinding_witness :
  let bound :=
    onLines (@V2.handleStratumMethod integer_runtime)
      [(Json (frame (JNum 1) "mining.subscribe" (JArr [JStr "progpow-veil"])), node_at 1)]
      (V2.new_client "2024-01-01 00:00:00", initial_world) in
  algorithm (fst bound) = JStr "progpow"
  /\ algorithm
       (fst (onLine (@V2.handleStratumMethod integer_runtime (node_at 1))
               (Json (frame (JNum 2) "mining.authorize" (JArr [JStr "alice"; JStr "x"])))
               bound))
     = JStr "progpow"
  /\ algorithm
       (fst (onLine (@V2.handleStratumMethod integer_runtime (node_at 1))
               (Json (frame (JNum 3) "mining.subscribe" (JArr [JStr "sha256d"])))
               bound))
     = JStr "sha256d".
Proof.
  intros bound. split; [reflexivity | split].
  - rewrite (surjective_pairing bound).
    rewrite (proj1 (proj2 (@C6_algorithm_rebinding integer_runtime)) (node_at 1)
               (frame (JNum 2) "mining.authorize" (JArr [JStr "alice"; JStr "x"]))
               (JNum 2) (JArr [JStr "alice"; JStr "x"]) (fst bound) (snd bound) eq_refl).
    reflexivity.
  - rewrite (surjective_pairing bound).
    apply (proj2 (proj2 (@C6_algorithm_rebinding integer_runtime)) (node_at 1)
             (frame (JNum 3) "mining.subscribe" (JArr [JStr "sha256d"]))
             (JNum 3) (JArr [JStr "sha256d"]) [JStr "sha256d"] (JStr "sha256d")
             (fst bound) (snd bound)); reflexivity.
Defined.

(** ** C7: the subscribe scenario *)



(** ** C8: authorize *)




(** ** C9: unknown methods *)




(** ** C10: new sessions *)

(** C10. In the first variant the session object of a new connection
    has authorized true and wallet local_worker before any exchange, and
    whatever lines the session receives afterwards the two fields keep
    these values; in the second variant the session object of a new
    connection has authorized false and wallet null. *)
Theorem C10_fresh_session_authorization `{JsRuntime} :
  forall now,
    (authorized (V1.new_client now) = true
     /\ wallet (V1.new_client now) = JStr "local_worker")
    /\ (forall input w,
          let c := fst (onLines V1.handleStratumMethod input (V1.new_client now, w)) in
          authorized c = true /\ wallet c = JStr "local_worker")
    /\ (authorized (V2.new_client now) = false
        /\ wallet (V2.new_client now) = JNull).
Proof.
  intros now. split; [split; reflexivity | split; [|split; reflexivity]].
  intros input w.
  destruct (V1_onLines_fields input (V1.new_client now) w) as (Ha & Hw & _).
  cbv zeta. rewrite Ha, Hw. split; reflexivity.
Qed.

(** ** Names that ALGORITHMS inherits *)


(** * More of the code *)

(** ** createMiningJob: failures, requests and errors *)

(** X2. In the first variant a call of createMiningJob always settles:
    it returns a job, which is then found in the job table under its id, or
    it throws, and then the job counter and the job table are as they were
    before the call. *)
Theorem X2_V1_createMiningJob_failure_is_clean `{JsRuntime} :
  forall node A w,
    match V1.createMiningJob node A w with
    | (Return job, w') => currentJobs w' !! job_id job = Some job
    | (Throw _, w') => jobCounter w' = jobCounter w /\ currentJobs w' = currentJobs w
    | (Pending, _) => False
    end.
Proof.
  intros node A w. unfold V1.createMiningJob, V1.checkNodeStatus.
  destruct (truthy A); run; [|auto].
  destruct (getBlockchainInfo node) as [err|[info|]]; run; auto.
  destruct (PrimFloat.ltb 0.999 (verificationprogress info)); run; [|auto].
  destruct (getblocktemplate node) as [err|t]; run.
  - destruct (is_num (err_code err) (-10) || includes (err_message err) "syncing"
              || includes (err_message err) "loading"); run; auto.
  - destruct (truthy t); run; [|auto]. apply lookup_insert_eq.
Qed.

(** X3. The requests of one call of createMiningJob.  The first variant
    sends none when the algorithm is falsy, else the status request, and
    after it the template request exactly when the node is synced; the
    second variant sends the template request and nothing else, whatever
    the algorithm and the node's answer. *)
Theorem X3_createMiningJob_requests `{JsRuntime} :
  forall node A w,
    (let w' := snd (V1.createMiningJob node A w) in
     if truthy A then
       match getBlockchainInfo node with
       | RpcOk (Some info) =>
           if PrimFloat.ltb 0.999 (verificationprogress info)
           then sends w w' [GetBlockchainInfo; GetBlockTemplate template_options]
           else sends w w' [GetBlockchainInfo]
       | _ => sends w w' [GetBlockchainInfo]
       end
     else sends w w' [])
    /\ sends w (snd (V2.createMiningJob node A w)) [GetBlockTemplate template_options].
Proof.
  intros node A w. unfold sends. split.
  - unfold V1.createMiningJob, V1.checkNodeStatus.
    destruct (truthy A); run; [|now rewrite app_nil_r].
    destruct (getBlockchainInfo node) as [err|[info|]]; run; try reflexivity.
    destruct (PrimFloat.ltb 0.999 (verificationprogress info)); run; [|reflexivity].
    destruct (getblocktemplate node) as [err|t]; run.
    + destruct (is_num (err_code err) (-10) || includes (err_message err) "syncing"
                || includes (err_message err) "loading"); run;
        now rewrite <- app_assoc.
    + destruct (truthy t); run; now rewrite <- app_assoc.
  - unfold V2.createMiningJob. run.
    destruct (getblocktemplate node) as [err|t]; run; [reflexivity|].
    destruct (is_nullish t); reflexivity.
Qed.

(** X4. When the node answers the template request with an error, the
    first variant (the node being synced and the algorithm truthy) throws
    the fixed not-ready error if the error's code is -10 or its message
    contains syncing or loading, and the node's own error otherwise; the
    second variant always throws the node's own error.  Neither registers a
    job nor advances the counter. *)
Theorem X4_createMiningJob_template_error `{JsRuntime} :
  forall node A w err,
    getblocktemplate node = RpcErr err ->
    (truthy A = true ->
     node_synced node ->
     V1.createMiningJob node A w
     = (Throw (Thrown
          (if not_ready err
           then Error "Node is not ready for mining. Please wait for sync completion."
           else err)),
        world_sent w [GetBlockchainInfo; GetBlockTemplate template_options]))
    /\ V2.createMiningJob node A w
       = (Throw (Thrown err), world_sent w [GetBlockTemplate template_options]).
Proof.
  intros node A w err Herr. split.
  - intros HA (info & Hinfo & Hsync).
    unfold V1.createMiningJob, V1.checkNodeStatus, not_ready, world_sent.
    rewrite HA. run. rewrite Hinfo. run. rewrite Hsync. run. rewrite Herr. run.
    destruct (is_num (err_code err) (-10) || includes (err_message err) "syncing"
              || includes (err_message err) "loading"); run;
      now rewrite <- app_assoc.
  - unfold V2.createMiningJob, world_sent. run. rewrite Herr. reflexivity.
Qed.

Lemma X4_createMiningJob_template_error_witness :
  @V1.createMiningJob integer_runtime
    (node_without_template (mkError (JNum (-10)) "Veil is downloading blocks"))
    (JStr "progpow") initial_world
  = (Throw (Thrown (Error "Node is not ready for mining. Please wait for sync completion.")),
     world_sent initial_world [GetBlockchainInfo; GetBlockTemplate template_options])
  /\ @V2.createMiningJob integer_runtime
       (node_without_template (mkError (JNum (-10)) "Veil is downloading blocks"))
       (JStr "progpow") initial_world
     = (Throw (Thrown (mkError (JNum (-10)) "Veil is downloading blocks")),
        world_sent initial_world [GetBlockTemplate template_options]).
Proof.
  pose proof (@X4_createMiningJob_template_error integer_runtime
                (node_without_template (mkError (JNum (-10)) "Veil is downloading blocks"))
                (JStr "progpow") initial_world
                (mkError (JNum (-10)) "Veil is downloading blocks") eq_refl)
    as [Hfirst Hsecond].
  split; [|exact Hsecond].
  apply Hfirst; [reflexivity|]. eexists. split; reflexivity.
Defined.

(** ** The job table *)

Lemma table_of_initial : table_of initial_world [].
Proof.
  split; [apply numbered_up_to_initial|]. split; [constructor|].
  split; [constructor|]. simpl. apply map_size_empty.
Qed.

Section Table.
Variable create : Backend -> JsVal -> M World Job.
Hypothesis create_numbers : numbers_jobs create.

Lemma table_of_step node A w prior :
  table_of w prior ->
  match create node A w with
  | (Return job, w') => table_of w' (prior ++ [job])
  | (_, w') => table_of w' prior
  end.
Proof.
  intros (Hnum & Hdup & Hfound & Hsize).
  pose proof (numbered_up_to_step create create_numbers node A w prior Hnum) as Hstep.
  pose proof (create_numbers node A w) as Hc.
  destruct (create node A w) as [[job| |] w'].
  - destruct Hc as (Hn & Hm & Hid & _).
    destruct Hnum as [Hjobs Htable].
    assert (Hfree : currentJobs w !! job_id job = None).
    { destruct (currentJobs w !! job_id job) as [j|] eqn:Hk; [|reflexivity].
      destruct (Htable _ _ Hk) as (c & Hc1 & Hc2).
      rewrite Hid in Hc1. injection Hc1 as <-. lia. }
    assert (Hnew : job_id job ∉ job_id <$> prior).
    { intros Hin. apply list_elem_of_fmap in Hin as (j & Heq & Hj).
      rewrite Forall_forall in Hfound. specialize (Hfound j Hj).
      rewrite <- Heq in Hfound. congruence. }
    split; [exact Hstep|]. split; [|split].
    + rewrite fmap_app. apply NoDup_app. split; [exact Hdup|]. split.
      * intros x Hx Hx'. simpl in Hx'. apply list_elem_of_singleton in Hx'.
        subst x. contradiction.
      * simpl. apply NoDup_singleton.
    + apply Forall_app. split.
      * eapply Forall_impl; [exact Hfound|]. intros j Hj. simpl in Hj. rewrite Hm.
        rewrite lookup_insert_ne; [exact Hj|]. intros Heq. congruence.
      * constructor; [|constructor]. rewrite Hm. apply lookup_insert_eq.
    + rewrite Hm, map_size_insert_None by exact Hfree.
      rewrite length_app. simpl. lia.
  - destruct Hc as (Hm & _). split; [exact Hstep|]. rewrite Hm. auto.
  - destruct Hc as (Hm & _). split; [exact Hstep|]. rewrite Hm. auto.
Qed.

Lemma table_of_issue calls : forall w prior jobs w',
  table_of w prior ->
  issue create calls w = (jobs, w') ->
  table_of w' (prior ++ jobs).
Proof.
  induction calls as [|[node A] rest IH]; intros w prior jobs w' Hinv Hrun; simpl in Hrun.
  - injection Hrun as <- <-. now rewrite app_nil_r.
  - pose proof (table_of_step node A w prior Hinv) as Hstep.
    destruct (create node A w) as [[job| |] w1].
    + destruct (issue create rest w1) as [jobs1 w2] eqn:Hrest.
      injection Hrun as <- <-.
      pose proof (IH _ _ _ _ Hstep Hrest) as Hinv2.
      now rewrite <- app_assoc in Hinv2.
    + exact (IH _ _ _ _ Hstep Hrun).
    + exact (IH _ _ _ _ Hstep Hrun).
Qed.

End Table.

(** A call of the first variant that returns no job leaves the counter. *)
Lemma V1_failure_keeps_counter `{JsRuntime} node A w :
  match V1.createMiningJob node A w with
  | (Return _, _) => True
  | (_, w') => jobCounter w' = jobCounter w
  end.
Proof.
  unfold V1.createMiningJob, V1.checkNodeStatus.
  destruct (truthy A); run; [|auto].
  destruct (getBlockchainInfo node) as [err|[info|]]; run; auto.
  destruct (PrimFloat.ltb 0.999 (verificationprogress info)); run; [|auto].
  destruct (getblocktemplate node) as [err|t]; run.
  - destruct (is_num (err_code err) (-10) || includes (err_message err) "syncing"
              || includes (err_message err) "loading"); run; auto.
  - destruct (truthy t); run; auto.
Qed.

(** In the first variant the counter counts the issued jobs. *)
Lemma V1_counter_counts calls : forall `{JsRuntime} w jobs w',
  issue V1.createMiningJob calls w = (jobs, w') ->
  jobCounter w' = (jobCounter w + N.of_nat (length jobs))%N.
Proof.
  induction calls as [|[node A] rest IH]; intros RT w jobs w' Hrun; simpl in Hrun.
  - injection Hrun as <- <-. simpl. lia.
  - pose proof (V1_failure_keeps_counter node A w) as Hkeep.
    pose proof (V1_numbers_jobs node A w) as Hc.
    destruct (V1.createMiningJob node A w) as [[job| |] w1].
    + destruct (issue V1.createMiningJob rest w1) as [jobs1 w2] eqn:Hrest.
      injection Hrun as <- <-. rewrite (IH _ _ _ _ Hrest).
      destruct Hc as (Hn & _). rewrite Hn. simpl length. lia.
    + rewrite (IH _ _ _ _ Hrun). now rewrite Hkeep.
    + rewrite (IH _ _ _ _ Hrun). now rewrite Hkeep.
Qed.

(** In either variant the counter is at least the number of issued jobs. *)
Lemma counter_at_least create calls : forall w jobs w',
  numbers_jobs create ->
  issue create calls w = (jobs, w') ->
  (jobCounter w + N.of_nat (length jobs) <= jobCounter w')%N.
Proof.
  induction calls as [|[node A] rest IH]; intros w jobs w' Hnum Hrun; simpl in Hrun.
  - injection Hrun as <- <-. simpl. lia.
  - pose proof (Hnum node A w) as Hc.
    destruct (create node A w) as [[job| |] w1].
    + destruct (issue create rest w1) as [jobs1 w2] eqn:Hrest.
      injection Hrun as <- <-. pose proof (IH _ _ _ Hnum Hrest) as Hle.
      destruct Hc as (Hn & _). simpl length. lia.
    + pose proof (IH _ _ _ Hnum Hrun) as Hle. destruct Hc as (_ & Hn). lia.
    + pose proof (IH _ _ _ Hnum Hrun) as Hle. destruct Hc as (_ & Hn). lia.
Qed.

(** X5. The job table never loses or merges an entry: after any
    sequence of calls of createMiningJob from the start of the process the
    table has exactly as many entries as jobs were returned.  In the first
    variant the counter equals that number, so the job numbers have no gap;
    in the second the counter is at least that number. *)
Theorem X5_job_table_size `{JsRuntime} :
  (forall calls issued w,
      issue V1.createMiningJob calls initial_world = (issued, w) ->
      size (currentJobs w) = length issued
      /\ jobCounter w = N.of_nat (length issued))
  /\ (forall calls issued w,
      issue V2.createMiningJob calls initial_world = (issued, w) ->
      size (currentJobs w) = length issued
      /\ (N.of_nat (length issued) <= jobCounter w)%N).
Proof.
  split; intros calls issued w Hrun.
  - destruct (table_of_issue _ V1_numbers_jobs calls _ [] _ _ table_of_initial Hrun)
      as (_ & _ & _ & Hsize).
    split; [exact Hsize|]. now rewrite (V1_counter_counts calls _ _ _ Hrun).
  - destruct (table_of_issue _ V2_numbers_jobs calls _ [] _ _ table_of_initial Hrun)
      as (_ & _ & _ & Hsize).
    split; [exact Hsize|].
    pose proof (counter_at_least _ calls _ _ _ V2_numbers_jobs Hrun) as Hle.
    simpl in Hle. lia.
Qed.

Lemma X5_job_table_size_witness :
  let r1 := issue (@V1.createMiningJob integer_runtime)
              [(node_at 1, JStr "sha256d"); (node_at 0.5, JStr "randomx");
               (node_at 1, JStr "progpow")] initial_world in
  size (currentJobs (snd r1)) = length (fst r1)
  /\ jobCounter (snd r1) = N.of_nat (length (fst r1)).
Proof.
  intros r1.
  apply (proj1 (@X5_job_table_size integer_runtime)
           [(node_at 1, JStr "sha256d"); (node_at 0.5, JStr "randomx");
            (node_at 1, JStr "progpow")] (fst r1) (snd r1)).
  apply surjective_pairing.
Defined.

(** X6. Every job ever returned stays in the job table, unchanged, under
    its own id: after any sequence of calls of createMiningJob from the
    start of the process, in either variant, the ids of the returned jobs are
    pairwise distinct and looking up the id of any of them gives that job. *)
Theorem X6_issued_jobs_stay_retrievable `{JsRuntime} :
  forall calls,
    (forall issued w,
        issue V1.createMiningJob calls initial_world = (issued, w) ->
        NoDup (job_id <$> issued)
        /\ (forall j, j ∈ issued -> currentJobs w !! job_id j = Some j))
    /\ (forall issued w,
        issue V2.createMiningJob calls initial_world = (issued, w) ->
        NoDup (job_id <$> issued)
        /\ (forall j, j ∈ issued -> currentJobs w !! job_id j = Some j)).
Proof.
  intros calls. split; intros issued w Hrun.
  - destruct (table_of_issue _ V1_numbers_jobs calls _ [] _ _ table_of_initial Hrun)
      as (_ & Hdup & Hfound & _).
    split; [exact Hdup|]. now apply Forall_forall.
  - destruct (table_of_issue _ V2_numbers_jobs calls _ [] _ _ table_of_initial Hrun)
      as (_ & Hdup & Hfound & _).
    split; [exact Hdup|]. now apply Forall_forall.
Qed.

Lemma X6_issued_jobs_stay_retrievable_witness :
  let r2 := issue (@V2.createMiningJob integer_runtime)
              [(node_at 1, JStr "sha256d"); (node_at 0.5, JNull);
               (node_at 1, JStr "sha256d")] initial_world in
  NoDup (job_id <$> fst r2)
  /\ (forall j, j ∈ fst r2 -> currentJobs (snd r2) !! job_id j = Some j).
Proof.
  intros r2.
  apply (proj2 (@X6_issued_jobs_stay_retrievable integer_runtime
                  [(node_at 1, JStr "sha256d"); (node_at 0.5, JNull);
                   (node_at 1, JStr "sha256d")]) (fst r2) (snd r2)).
  apply surjective_pairing.
Defined.

(** ** The initial job of a subscribe, and what a job frame carries *)



(** X8. What a mining.notify frame carries of the template a job was
    made from.  In the first variant it is always the job id, the previous
    block hash, two empty strings, an empty array, version, bits, time and
    true: the coinbase and the algorithm's own fields are not sent.  In the
    second variant it is the job id, the previous block hash, the coinbase,
    version, bits, time and true, followed for a progpow session by the
    template's progpow header and mix hash, for a sha256d session by its
    merkle root and for a randomx session by its seed; for a session that
    never subscribed the job is named after null and nothing follows. *)
Theorem X8_notify_frame_of_template `{JsRuntime} :
  forall A n t c,
    V1.miningNotify (build_job A n t)
    = JObj [("id", JNull); ("method", JStr "mining.notify");
            ("params",
             JArr [JStr (ToString A +:+ "-" +:+ decimal n);
                   field t "previousblockhash"; JStr ""; JStr ""; JArr [];
                   field t "version"; field t "bits"; field t "curtime"; JBool true])]
    /\ (let common a :=
          [JStr (a +:+ "-" +:+ decimal n); field t "previousblockhash";
           field t "coinbasetxn"; field t "version"; field t "bits";
           field t "curtime"; JBool true] in
        let notify a extras :=
          JObj [("id", JNull); ("method", JStr "mining.notify");
                ("params", JArr (common a ++ extras))] in
        V2.miningNotify (set_algorithm (JStr "progpow") c) (build_job (JStr "progpow") n t)
        = notify "progpow" [field t "progpow_header"; field t "progpow_mix_hash"]
        /\ V2.miningNotify (set_algorithm (JStr "sha256d") c) (build_job (JStr "sha256d") n t)
           = notify "sha256d" [field t "merkle_root"]
        /\ V2.miningNotify (set_algorithm (JStr "randomx") c) (build_job (JStr "randomx") n t)
           = notify "randomx" [field t "randomx_seed"]
        /\ V2.miningNotify (set_algorithm JNull c) (build_job JNull n t)
           = notify "null" []).
Proof.
  intros A n t c. split; [reflexivity|]. cbv zeta. repeat split; reflexivity.
Qed.

(** ** Submissions *)





(** ** Requests that cannot be read *)


Lemma V2_subscribe_not_iterable `{JsRuntime} id params s :
  iterate params = None ->
  V2.subscribe id params s = (Throw TypeError, s).
Proof. intros Hit. unfold V2.subscribe. rewrite Hit. reflexivity. Qed.






(** ** The states of a session *)

Lemma onLine_session_state handle message c w :
  session_state (fst (onLine handle (Json message) (c, w)))
  = session_state (fst (snd (handle message (c, w)))).
Proof.
  destruct (onLine_json_fields handle message c w) as (Ha & Hw & Hg & Hd & He).
  cbv zeta in *. unfold session_state. now rewrite Ha, Hw, Hg, Hd, He.
Qed.

Lemma V1_handle_session_state `{JsRuntime} node message c w :
  let c' := fst (snd (V1.handleStratumMethod node message (c, w))) in
  session_state c' = session_state c
  \/ session_state c'
     = (JStr "progpow", authorized c, wallet c, JNum 0.002, Some zero_nonce).
Proof.
  unfold V1.handleStratumMethod.
  destruct (destructure_message message) as [[[id method] params]|]; [|simpl; auto].
  unfold try_catch.
  destruct (is_str method "mining.subscribe").
  { destruct (iterate params) as [items|] eqn:Hit.
    - rewrite (V1_subscribe_runs node id params items c w Hit).
      destruct (V1.createMiningJob node (JStr "progpow") w) as [[job| |] w'];
        simpl; auto.
    - rewrite (V1_subscribe_not_iterable node id params (c, w) Hit). simpl. auto. }
  destruct (is_str method "mining.authorize").
  { rewrite V1_authorize_runs. destruct (is_nullish params); simpl; auto. }
  destruct (is_str method "mining.submit").
  { destruct (iterate params) as [items|] eqn:Hit.
    - rewrite (V1_submit_forwards node id params items c w Hit). simpl. auto.
    - rewrite (V1_submit_not_iterable node id params (c, w) Hit). simpl. auto. }
  simpl. auto.
Qed.

Lemma V1_onLine_session_state `{JsRuntime} node line c w :
  let c' := fst (onLine (V1.handleStratumMethod node) line (c, w)) in
  session_state c' = session_state c
  \/ session_state c'
     = (JStr "progpow", authorized c, wallet c, JNum 0.002, Some zero_nonce).
Proof.
  destruct line as [| |message]; [simpl; auto | simpl; auto |].
  cbv zeta. rewrite onLine_session_state. apply V1_handle_session_state.
Qed.

(** X13. A session of the first variant is only ever in one of two
    states, whatever lines it receives: as the connection made it
    (no algorithm, no difficulty, no extra-nonce), or subscribed to progpow
    at difficulty 0.002 with the extra-nonce 00000000; it is authorized
    with wallet local_worker in both.  So every subscribed session holds the
    same extra-nonce. *)
Theorem X13_V1_session_states `{JsRuntime} :
  forall now input w,
    let c := fst (onLines V1.handleStratumMethod input (V1.new_client now, w)) in
    session_state c = (JNull, true, JStr "local_worker", JNull, None)
    \/ session_state c
       = (JStr "progpow", true, JStr "local_worker", JNum 0.002, Some zero_nonce).
Proof.
  intros now input w.
  assert (Hgen : forall c0 w0,
    session_state c0 = (JNull, true, JStr "local_worker", JNull, None)
    \/ session_state c0
       = (JStr "progpow", true, JStr "local_worker", JNum 0.002, Some zero_nonce) ->
    let c := fst (onLines V1.handleStratumMethod input (c0, w0)) in
    session_state c = (JNull, true, JStr "local_worker", JNull, None)
    \/ session_state c
       = (JStr "progpow", true, JStr "local_worker", JNum 0.002, Some zero_nonce)).
  { induction input as [|[line node] rest IH]; intros c0 w0 Hc0; simpl; [exact Hc0|].
    pose proof (V1_onLine_session_state node line c0 w0) as Hstep.
    destruct (onLine (V1.handleStratumMethod node) line (c0, w0)) as [c1 w1].
    simpl in Hstep. apply IH.
    destruct Hstep as [-> | ->]; [exact Hc0|].
    right. unfold session_state in Hc0.
    destruct Hc0 as [Hc0 | Hc0]; injection Hc0 as _ -> -> _ _; reflexivity. }
  apply Hgen. left. reflexivity.
Qed.

Lemma V2_handle_session_state `{JsRuntime} node message c w :
  let c' := fst (snd (V2.handleStratumMethod node message (c, w))) in
  extraNonce c' = extraNonce c
  /\ ((authorized c' = authorized c /\ wallet c' = wallet c) \/ authorized c' = true)
  /\ ((algorithm c' = algorithm c /\ difficulty c' = difficulty c)
      \/ difficulty c' = JNum (getDifficultyForAlgo (algorithm c'))).
Proof.
  unfold V2.handleStratumMethod.
  destruct (destructure_message message) as [[[id method] params]|]; [|simpl; auto].
  unfold try_catch.
  destruct (is_str method "mining.subscribe").
  { destruct (iterate params) as [items|] eqn:Hit.
    - rewrite (V2_subscribe_runs id params items c w Hit).
      destruct (truthy (ALGORITHMS_get (nth_elem items 0))); simpl; auto.
    - rewrite (V2_subscribe_not_iterable id params (c, w) Hit). simpl. auto. }
  destruct (is_str method "mining.authorize").
  { destruct (iterate params) as [items|] eqn:Hit.
    - rewrite (V2_authorize_runs node id params items c w Hit). cbv zeta.
      destruct (V2.createMiningJob node (algorithm c) w) as [[job| |] w']; simpl; auto.
    - rewrite (V2_authorize_not_iterable node id params (c, w) Hit). simpl. auto. }
  destruct (is_str method "mining.submit"); [|simpl; auto].
  pose proof (V2_submit_client node id params c w) as Hc.
  destruct (V2.submit node id params (c, w)) as [[response|x|] [c1 w1]];
    simpl in *; subst c1; auto.
Qed.

(** X14. What the lines received by a session of the second variant can
    never undo or break: no line resets the authorized flag of an authorized
    session; a session that is not authorized has no wallet; the session's
    difficulty is the difficulty of its algorithm, both unset until a
    subscribe binds them; and no extra-nonce is ever assigned. *)
Theorem X14_V2_session_invariants `{JsRuntime} :
  forall input,
    (forall c w,
        authorized c = false
        \/ authorized (fst (onLines V2.handleStratumMethod input (c, w))) = true)
    /\ (forall now w,
        let c := fst (onLines V2.handleStratumMethod input (V2.new_client now, w)) in
        (authorized c = true \/ wallet c = JNull)
        /\ ((algorithm c = JNull /\ difficulty c = JNull)
            \/ difficulty c = JNum (getDifficultyForAlgo (algorithm c)))
        /\ extraNonce c = None).
Proof.
  assert (Hstep : forall node line c w,
    let c' := fst (onLine (V2.handleStratumMethod node) line (c, w)) in
    extraNonce c' = extraNonce c
    /\ ((authorized c' = authorized c /\ wallet c' = wallet c) \/ authorized c' = true)
    /\ ((algorithm c' = algorithm c /\ difficulty c' = difficulty c)
        \/ difficulty c' = JNum (getDifficultyForAlgo (algorithm c')))).
  { intros node line c w. destruct line as [| |message]; [simpl; auto | simpl; auto |].
    destruct (onLine_json_fields (V2.handleStratumMethod node) message c w)
      as (Ha & Hw & Hg & Hd & He).
    pose proof (V2_handle_session_state node message c w) as Hh.
    cbv zeta in *. rewrite Ha, Hw, Hg, Hd, He. exact Hh. }
  intros input. split.
  - induction input as [|[line node] rest IH]; intros c w; simpl.
    + destruct (authorized c); auto.
    + pose proof (Hstep node line c w) as (_ & Hauth & _).
      destruct (onLine (V2.handleStratumMethod node) line (c, w)) as [c1 w1].
      simpl in Hauth. destruct (authorized c) eqn:Hc; [|auto]. right.
      destruct (IH c1 w1) as [Hfalse | Htrue]; [|exact Htrue].
      destruct Hauth as [[Hsame _] | Hset]; congruence.
  - intros now w.
    assert (Hgen : forall c0 w0,
      (authorized c0 = true \/ wallet c0 = JNull)
      /\ ((algorithm c0 = JNull /\ difficulty c0 = JNull)
          \/ difficulty c0 = JNum (getDifficultyForAlgo (algorithm c0)))
      /\ extraNonce c0 = None ->
      let c := fst (onLines V2.handleStratumMethod input (c0, w0)) in
      (authorized c = true \/ wallet c = JNull)
      /\ ((algorithm c = JNull /\ difficulty c = JNull)
          \/ difficulty c = JNum (getDifficultyForAlgo (algorithm c)))
      /\ extraNonce c = None).
    { induction input as [|[line node] rest IH]; intros c0 w0 Hc0; simpl; [exact Hc0|].
      pose proof (Hstep node line c0 w0) as (He & Hauth & Halg).
      destruct (onLine (V2.handleStratumMethod node) line (c0, w0)) as [c1 w1].
      simpl in He, Hauth, Halg. apply IH.
      destruct Hc0 as (Hw0 & Hd0 & He0). split; [|split].
      - destruct Hauth as [[Ha Hw] | Hset]; [|auto].
        rewrite Ha, Hw. exact Hw0.
      - destruct Halg as [[Ha Hd] | Hset]; [|auto].
        rewrite Ha, Hd. exact Hd0.
      - congruence. }
    apply Hgen. simpl. auto.
Qed.

(** ** The frames written for a line *)

Lemma V2_submit_outcome `{JsRuntime} node id params c w :
  exists o w',
    V2.submit node id params (c, w) = (o, (c, w'))
    /\ (o = Throw TypeError
        \/ exists r, o = Return r /\ field r "id" = id /\ truthy r = true).
Proof.
  unfold V2.submit, V2.submitWork. run.
  destruct (authorized c); run;
    [|eexists _, _; split; [reflexivity | right; eexists; repeat split]].
  destruct (iterate params) as [items|]; run;
    [|eexists _, _; split; [reflexivity | left; reflexivity]].
  destruct (is_str (algorithm c) "progpow"); run.
  { match goal with |- context [submitblock node ?p] =>
      destruct (submitblock node p) end;
      (eexists _, _; split; [reflexivity | right; eexists; repeat split]). }
  destruct (is_str (algorithm c) "sha256d"); run.
  { match goal with |- context [submitblock node ?p] =>
      destruct (submitblock node p) end;
      (eexists _, _; split; [reflexivity | right; eexists; repeat split]). }
  destruct (is_str (algorithm c) "randomx"); run.
  { match goal with |- context [submitblock node ?p] =>
      destruct (submitblock node p) end;
      (eexists _, _; split; [reflexivity | right; eexists; repeat split]). }
  eexists _, _; split; [reflexivity | right; eexists; repeat split].
Qed.

(** X15. Every frame written while a line is handled carries the id of
    the line's request or the id null (a notification, or the Invalid
    message frame): no line is answered under another id.  A line makes the
    first variant write at most three frames and the second at most two. *)
Theorem X15_frames_carry_request_id `{JsRuntime} :
  forall node line c w,
    answers_line line 3 c (fst (onLine (V1.handleStratumMethod node) line (c, w)))
    /\ answers_line line 2 c (fst (onLine (V2.handleStratumMethod node) line (c, w))).
Proof.
  intros node line c w. unfold answers_line.
  destruct line as [| |message].
  { split; frames_are (@nil JsVal). }
  { split; frames_are [invalid_message_frame]. }
  unfold onLine, line_id, V1.handleStratumMethod, V2.handleStratumMethod.
  destruct (destructure_message message) as [[[id method] params]|];
    [|split; frames_are [invalid_message_frame]].
  unfold try_catch. split.
  - destruct (is_str method "mining.subscribe").
    { destruct (iterate params) as [items|] eqn:Hit.
      - rewrite (V1_subscribe_runs node id params items c w Hit).
        destruct (V1.createMiningJob node (JStr "progpow") w) as [[job| |] w'].
        + frames_are [set_difficulty_frame (JNum 0.002);
                      V1.subscribeResponse id zero_nonce; V1.miningNotify job].
        + frames_are [set_difficulty_frame (JNum 0.002);
                      V1.subscribeResponse id zero_nonce].
        + frames_are [set_difficulty_frame (JNum 0.002);
                      V1.subscribeResponse id zero_nonce].
      - rewrite (V1_subscribe_not_iterable node id params (c, w) Hit).
        frames_are [error_response id (JStr "Internal error")]. }
    destruct (is_str method "mining.authorize").
    { rewrite V1_authorize_runs. destruct (is_nullish params).
      - frames_are [true_response id; error_response id (JStr "Internal error")].
      - frames_are [true_response id]. }
    destruct (is_str method "mining.submit").
    { destruct (iterate params) as [items|] eqn:Hit.
      - rewrite (V1_submit_forwards node id params items c w Hit). cbv zeta.
        match goal with |- context [submitblock node ?p] =>
          destruct (submitblock node p) as [err|result] end.
        + frames_are [error_response id (JStr (err_message err))].
        + frames_are [true_response id].
      - rewrite (V1_submit_not_iterable node id params (c, w) Hit).
        frames_are [error_response id (JStr "Internal error")]. }
    frames_are [error_response id (JStr ("Unknown method " +:+ ToString method))].
  - destruct (is_str method "mining.subscribe").
    { destruct (iterate params) as [items|] eqn:Hit.
      - rewrite (V2_subscribe_runs id params items c w Hit).
        destruct (truthy (ALGORITHMS_get (nth_elem items 0))).
        + frames_are [set_difficulty_frame
                        (JNum (getDifficultyForAlgo (ALGORITHMS_get (nth_elem items 0))));
                      V2.subscribeResponse id (nth_elem items 1)].
        + frames_are [error_response id (JStr "Unsupported algorithm")].
      - rewrite (V2_subscribe_not_iterable id params (c, w) Hit).
        frames_are [error_response id (JStr "Internal error")]. }
    destruct (is_str method "mining.authorize").
    { destruct (iterate params) as [items|] eqn:Hit.
      - rewrite (V2_authorize_runs node id params items c w Hit). cbv zeta.
        destruct (V2.createMiningJob node (algorithm c) w) as [[job| |] w'].
        + frames_are [V2.miningNotify (V2_authorized (nth_elem items 0) c) job;
                      true_response id].
        + frames_are [true_response id].
        + frames_are (@nil JsVal).
      - rewrite (V2_authorize_not_iterable node id params (c, w) Hit).
        frames_are [error_response id (JStr "Internal error")]. }
    destruct (is_str method "mining.submit"); [|frames_are (@nil JsVal)].
    destruct (V2_submit_outcome node id params c w) as (o & w' & Hrun & Ho).
    rewrite Hrun. destruct Ho as [-> | (r & -> & Hid & Htruthy)].
    + frames_are [error_response id (JStr "Internal error")].
    + rewrite Htruthy. exists [r]. split; [reflexivity|]. split; [simpl; lia|].
      constructor; [left; exact Hid | constructor].
Qed.

(** ** The timer of the second variant *)

Lemma updateClient_runs `{JsRuntime} node c w :
  authorized c = true ->
  updateClient node (c, w)
  = match V2.createMiningJob node (algorithm c) w with
    | (Return job, w') => (Return tt, (socket_write (V2.miningNotify c job) c, w'))
    | (Throw _, w') => (Return tt, (c, w'))
    | (Pending, w') => (Pending, (c, w'))
    end.
Proof.
  intros Hc. unfold updateClient, V2.sendMiningJob.
  remember (V2.createMiningJob node) as create eqn:Hcreate. run.
  destruct (create (algorithm c) w) as [[job| |] w']; run; [|reflexivity|reflexivity].
  rewrite Hc. reflexivity.
Qed.

(** The loop changes a session object by writing to its socket only. *)
Lemma updateClient_session `{JsRuntime} node c w :
  authorized c = true ->
  authorized (fst (snd (updateClient node (c, w)))) = true.
Proof.
  intros Hc. rewrite (updateClient_runs node c w Hc).
  destruct (V2.createMiningJob node (algorithm c) w) as [[job| |] w']; exact Hc.
Qed.

Lemma updateClients_registry `{JsRuntime} refs node_for : forall srv,
  clients (updateClients refs node_for srv) = clients srv
  /\ next_ref (updateClients refs node_for srv) = next_ref srv.
Proof.
  induction refs as [|r rest IH]; intros srv; simpl; [auto|].
  destruct (heap srv !! r) as [c|]; [|apply IH].
  destruct (authorized c); [|apply IH].
  destruct (updateClient (node_for r) (c, process srv)) as [[[]|x|] [c' w']];
    try (now rewrite !(proj1 (IH _)), !(proj2 (IH _))); simpl; auto.
Qed.

Lemma updateClients_leaves `{JsRuntime} refs node_for r : forall srv,
  r ∉ refs \/ served (heap srv) r = false ->
  heap (updateClients refs node_for srv) !! r = heap srv !! r.
Proof.
  induction refs as [|r0 rest IH]; intros srv Hr; simpl; [reflexivity|].
  assert (Hrest : forall srv', served (heap srv') r = served (heap srv) r ->
            r ∉ rest \/ served (heap srv') r = false).
  { intros srv' Hsame. destruct Hr as [Hr | Hr]; [left | right; congruence].
    intros Hin. apply Hr. now right. }
  destruct (heap srv !! r0) as [c|] eqn:Hc; [|apply IH; now apply Hrest].
  destruct (authorized c) eqn:Hauth; [|apply IH; now apply Hrest].
  assert (Hne : r0 <> r).
  { intros ->. destruct Hr as [Hr | Hr]; [apply Hr; now left|].
    unfold served in Hr. rewrite Hc in Hr. congruence. }
  destruct (updateClient (node_for r0) (c, process srv)) as [o [c' w']].
  assert (Hkeep : forall o' : Outcome unit, heap
            (match o' with
             | Pending =>
                 {| heap := <[r0:=c']> (heap srv); clients := clients srv;
                    next_ref := next_ref srv; process := w' |}
             | _ =>
                 updateClients rest node_for
                   {| heap := <[r0:=c']> (heap srv); clients := clients srv;
                      next_ref := next_ref srv; process := w' |}
             end) !! r = heap srv !! r).
  { intros o'.
    assert (Hstore : heap {| heap := <[r0:=c']> (heap srv); clients := clients srv;
                             next_ref := next_ref srv; process := w' |} !! r
                     = heap srv !! r).
    { simpl. now rewrite lookup_insert_ne. }
    destruct o' as [[]|x|]; try exact Hstore;
      (rewrite IH; [exact Hstore|]; apply Hrest; unfold served; now rewrite Hstore). }
  apply Hkeep.
Qed.

(** X16. A tick of the job timer never writes to a session that is not
    in the registry or is not authorized, and sends no frame at all to such
    a session: its session object is after the tick what it was before.  So
    once the socket of a session has ended or failed, no later tick writes
    to it. *)
Theorem X16_tick_leaves_closed_sessions `{JsRuntime} :
  forall node_for srv r,
    (r ∉ clients srv \/ served (heap srv) r = false ->
     heap (blockTemplateUpdates node_for srv) !! r = heap srv !! r)
    /\ heap (blockTemplateUpdates node_for (onClose r srv)) !! r = heap srv !! r.
Proof.
  intros node_for srv r. unfold blockTemplateUpdates. split.
  - apply updateClients_leaves.
  - rewrite updateClients_leaves; [reflexivity|]. left. simpl.
    unfold clients_delete. rewrite list_elem_of_filter. intros [Hne _]. now apply Hne.
Qed.

(** One pass of the loop body on an authorized session whose node answer
    lets the job promise settle. *)
Lemma updateClient_settles `{JsRuntime} node c w :
  authorized c = true ->
  settles node ->
  updateClient node (c, w)
  = match getblocktemplate node with
    | RpcOk t =>
        let job := build_job (algorithm c) (jobCounter w + 1) t in
        (Return tt,
         (socket_write (V2.miningNotify c job) c,
          {| jobCounter := jobCounter w + 1;
             currentJobs := <[job_id job := job]> (currentJobs w);
             rpc := rpc w ++ [GetBlockTemplate template_options] |}))
    | RpcErr _ => (Return tt, (c, world_sent w [GetBlockTemplate template_options]))
    end.
Proof.
  intros Hc Hnode. rewrite (updateClient_runs node c w Hc).
  unfold settles in Hnode.
  destruct (getblocktemplate node) as [err|t] eqn:Ht.
  - unfold V2.createMiningJob. run. rewrite Ht. reflexivity.
  - now rewrite (V2_createMiningJob_returns node (algorithm c) w t Ht Hnode).
Qed.

Lemma served_insert h r0 c c' r :
  h !! r0 = Some c ->
  authorized c' = authorized c ->
  served (<[r0 := c']> h) r = served h r.
Proof.
  intros Hc Hauth. unfold served. destruct (decide (r0 = r)) as [->|Hne].
  - now rewrite lookup_insert_eq, Hc.
  - now rewrite lookup_insert_ne.
Qed.

Lemma updateClients_serves `{JsRuntime} refs node_for : forall srv,
  NoDup refs ->
  (forall r, r ∈ refs -> settles (node_for r)) ->
  let out := updateClients refs node_for srv in
  jobCounter (process out)
  = (jobCounter (process srv)
     + N.of_nat (length (List.filter
                           (fun r => served (heap srv) r && has_template (node_for r))
                           refs)))%N
  /\ rpc (process out)
     = (rpc (process srv)
        ++ ((fun _ => GetBlockTemplate template_options)
              <$> List.filter (served (heap srv)) refs))%list
  /\ forall r c,
       r ∈ refs -> heap srv !! r = Some c -> authorized c = true ->
       match getblocktemplate (node_for r) with
       | RpcOk t =>
           exists n,
             (jobCounter (process srv) < n <= jobCounter (process out))%N
             /\ heap out !! r
                = Some (socket_write
                          (V2.miningNotify c (build_job (algorithm c) n t)) c)
       | RpcErr _ => heap out !! r = Some c
       end.
Proof.
  induction refs as [|r0 rest IH]; intros srv Hnodup Hnodes; simpl.
  { rewrite N.add_0_r, app_nil_r. repeat split.
    intros r c Hr. now apply elem_of_nil in Hr. }
  apply NoDup_cons in Hnodup as [Hr0 Hnodup].
  assert (Hrest : forall r, r ∈ rest -> settles (node_for r)).
  { intros r Hr. apply Hnodes. now right. }
  assert (Hskip : served (heap srv) r0 = false ->
            forall r c, r ∈ r0 :: rest -> heap srv !! r = Some c ->
                        authorized c = true -> r ∈ rest).
  { intros Hno r c Hr Hc Hauth. apply elem_of_cons in Hr as [->|Hr]; [|exact Hr].
    unfold served in Hno. rewrite Hc in Hno. congruence. }
  destruct (heap srv !! r0) as [c0|] eqn:Hc0.
  2: { assert (Hno : served (heap srv) r0 = false) by (unfold served; now rewrite Hc0).
       rewrite Hno. simpl. destruct (IH srv Hnodup Hrest) as (Hn & Hrpc & Hall).
       repeat split; [exact Hn|exact Hrpc|].
       intros r c Hr Hc Hauth. apply Hall; eauto. }
  destruct (authorized c0) eqn:Hauth0.
  2: { assert (Hno : served (heap srv) r0 = false)
         by (unfold served; now rewrite Hc0).
       rewrite Hno. simpl. destruct (IH srv Hnodup Hrest) as (Hn & Hrpc & Hall).
       repeat split; [exact Hn|exact Hrpc|].
       intros r c Hr Hc Hauth. apply Hall; eauto. }
  assert (Hyes : served (heap srv) r0 = true) by (unfold served; now rewrite Hc0).
  rewrite Hyes. simpl.
  rewrite (updateClient_settles (node_for r0) c0 (process srv) Hauth0)
    by (apply Hnodes; now left).
  unfold has_template.
  destruct (getblocktemplate (node_for r0)) as [err|t] eqn:Ht; cbv beta iota zeta.
  - set (srv' := {| heap := <[r0:=c0]> (heap srv); clients := clients srv;
                    next_ref := next_ref srv;
                    process := world_sent (process srv)
                                 [GetBlockTemplate template_options] |}).
    destruct (IH srv' Hnodup Hrest) as (Hn & Hrpc & Hall).
    assert (Hserved : forall r, served (heap srv') r = served (heap srv) r).
    { intros r. apply (served_insert _ _ c0); auto. }
    split; [|split].
    + rewrite Hn. simpl. f_equal. f_equal. f_equal.
      apply List.filter_ext. intros r. now rewrite Hserved.
    + rewrite Hrpc. simpl. rewrite <- app_assoc. simpl. do 3 f_equal.
      apply List.filter_ext. exact Hserved.
    + intros r c Hr Hc Hauth. apply elem_of_cons in Hr as [->|Hr].
      * rewrite Ht. rewrite Hc in Hc0. injection Hc0 as ->.
        rewrite updateClients_leaves by now left.
        simpl. apply lookup_insert_eq.
      * assert (Hne : r0 <> r) by (intros ->; contradiction).
        apply (Hall r c Hr); [|exact Hauth].
        simpl. now rewrite lookup_insert_ne.
  - set (job := build_job (algorithm c0) (jobCounter (process srv) + 1) t).
    set (srv' := {| heap := <[r0:=socket_write (V2.miningNotify c0 job) c0]> (heap srv);
                    clients := clients srv;
                    next_ref := next_ref srv;
                    process := {| jobCounter := jobCounter (process srv) + 1;
                                  currentJobs := <[job_id job:=job]>
                                                   (currentJobs (process srv));
                                  rpc := rpc (process srv)
                                         ++ [GetBlockTemplate template_options] |} |}).
    destruct (IH srv' Hnodup Hrest) as (Hn & Hrpc & Hall).
    assert (Hserved : forall r, served (heap srv') r = served (heap srv) r).
    { intros r. apply (served_insert _ _ c0); auto. }
    split; [|split].
    + rewrite Hn. simpl.
      rewrite (List.filter_ext _ (fun r => served (heap srv) r
                                           && match getblocktemplate (node_for r) with
                                              | RpcOk _ => true
                                              | RpcErr _ => false
                                              end)).
      * fold (has_template). lia.
      * intros r. unfold has_template. now rewrite Hserved.
    + rewrite Hrpc. simpl. rewrite <- app_assoc. simpl. do 3 f_equal.
      apply List.filter_ext. exact Hserved.
    + intros r c Hr Hc Hauth. apply elem_of_cons in Hr as [->|Hr].
      * rewrite Ht. rewrite Hc in Hc0. injection Hc0 as ->.
        exists (jobCounter (process srv) + 1)%N. split.
        -- rewrite Hn. simpl. lia.
        -- rewrite updateClients_leaves by now left.
           simpl. apply lookup_insert_eq.
      * assert (Hne : r0 <> r) by (intros ->; contradiction).
        assert (Hc' : heap srv' !! r = Some c)
          by (simpl; now rewrite lookup_insert_ne).
        specialize (Hall r c Hr Hc' Hauth).
        destruct (getblocktemplate (node_for r)) as [err'|t']; [exact Hall|].
        destruct Hall as (n & Hbound & Hout). exists n. split; [|exact Hout].
        simpl in Hbound. lia.
Qed.

Lemma X16_tick_leaves_closed_sessions_witness :
  heap (@blockTemplateUpdates integer_runtime sample_answers sample_server) !! 2
  = heap sample_server !! 2.
Proof.
  apply (proj1 (@X16_tick_leaves_closed_sessions integer_runtime
                  sample_answers sample_server 2)).
  right. reflexivity.
Defined.

(** X17. What one tick of the job timer does when every template request
    it makes is answered (with a non-null template or with an error).
    The registry is not changed.  One template request is sent for each
    registered authorized session, in registry order, and the job counter
    advances by the number of those whose request got a template.  Each
    such session is sent exactly one mining.notify frame, appended to what
    its socket held, for a job made for the session's own algorithm from
    the template of its own request and numbered within this tick; nothing
    else of the session changes.  A session whose request failed is left as
    it was, and the failure does not keep the sessions after it from being
    served. *)
Theorem X17_tick_serves_authorized_sessions `{JsRuntime} :
  forall node_for srv,
    NoDup (clients srv) ->
    (forall r, r ∈ clients srv -> settles (node_for r)) ->
    let out := blockTemplateUpdates node_for srv in
    clients out = clients srv
    /\ next_ref out = next_ref srv
    /\ rpc (process out)
       = (rpc (process srv)
          ++ ((fun _ => GetBlockTemplate template_options)
                <$> List.filter (served (heap srv)) (clients srv)))%list
    /\ jobCounter (process out)
       = (jobCounter (process srv)
          + N.of_nat (length (List.filter
                                (fun r => served (heap srv) r
                                          && has_template (node_for r))
                                (clients srv))))%N
    /\ forall r c,
         r ∈ clients srv -> heap srv !! r = Some c -> authorized c = true ->
         match getblocktemplate (node_for r) with
         | RpcOk t =>
             exists n,
               (jobCounter (process srv) < n <= jobCounter (process out))%N
               /\ heap out !! r
                  = Some (socket_write
                            (V2.miningNotify c (build_job (algorithm c) n t)) c)
         | RpcErr _ => heap out !! r = Some c
         end.
Proof.
  intros node_for srv Hnodup Hnodes out. subst out. unfold blockTemplateUpdates.
  destruct (updateClients_registry (clients srv) node_for srv) as [Hclients Hnext].
  destruct (updateClients_serves (clients srv) node_for srv Hnodup Hnodes)
    as (Hn & Hrpc & Hall).
  repeat split; assumption.
Qed.

Lemma X17_tick_serves_authorized_sessions_witness :
  let out := @blockTemplateUpdates integer_runtime sample_answers sample_server in
  clients out = [0; 1; 2]
  /\ jobCounter (process out) = 3%N
  /\ length (rpc (process out)) = 4.
Proof.
  intros out.
  assert (Hnodup : NoDup (clients sample_server)).
  { change (clients sample_server) with [0; 1; 2].
    repeat (constructor; [rewrite ?elem_of_cons, elem_of_nil; lia|]). constructor. }
  assert (Hnodes : forall r, r ∈ clients sample_server -> settles (sample_answers r)).
  { intros r _. destruct r as [|[|r]]; unfold settles; simpl; auto. }
  destruct (@X17_tick_serves_authorized_sessions integer_runtime
              sample_answers sample_server Hnodup Hnodes)
    as (Hclients & _ & Hrpc & Hn & _).
  fold out in Hclients, Hrpc, Hn.
  split; [|split].
  - rewrite Hclients. reflexivity.
  - rewrite Hn. reflexivity.
  - rewrite Hrpc. reflexivity.
Defined.

(** ** The running server *)

Lemma V2_submit_response `{JsRuntime} node id params c w :
  exists o w',
    V2.submit node id params (c, w) = (o, (c, w'))
    /\ jobCounter w' = jobCounter w
    /\ currentJobs w' = currentJobs w
    /\ (o = Throw TypeError
        \/ exists r, o = Return r /\ truthy r = true /\ is_notify r = false).
Proof.
  unfold V2.submit, V2.submitWork. run.
  destruct (authorized c); run;
    [|eexists _, _; repeat split; right; eexists; repeat split].
  destruct (iterate params) as [items|]; run;
    [|eexists _, _; repeat split; left; reflexivity].
  destruct (is_str (algorithm c) "progpow"); run.
  { match goal with |- context [submitblock node ?p] =>
      destruct (submitblock node p) end;
      (eexists _, _; repeat split; right; eexists; repeat split). }
  destruct (is_str (algorithm c) "sha256d"); run.
  { match goal with |- context [submitblock node ?p] =>
      destruct (submitblock node p) end;
      (eexists _, _; repeat split; right; eexists; repeat split). }
  destruct (is_str (algorithm c) "randomx"); run.
  { match goal with |- context [submitblock node ?p] =>
      destruct (submitblock node p) end;
      (eexists _, _; repeat split; right; eexists; repeat split). }
  eexists _, _; repeat split; right; eexists; repeat split.
Qed.

(** A line either leaves the session authorized, or keeps its wallet and
    writes only frames that are no job. *)
Lemma V2_onLine_kept_out `{JsRuntime} node line c w :
  let c' := fst (onLine (V2.handleStratumMethod node) line (c, w)) in
  authorized c' = true
  \/ (wallet c' = wallet c
      /\ exists frames,
           socket c' = (socket c ++ frames)%list
           /\ Forall (fun f => is_notify f = false) frames).
Proof.
  assert (Hnone : wallet c = wallet c
                  /\ exists frames, socket c = (socket c ++ frames)%list
                                    /\ Forall (fun f => is_notify f = false) frames).
  { split; [reflexivity|]. exists []. now rewrite app_nil_r. }
  assert (Hone : forall f, is_notify f = false ->
            wallet (socket_write f c) = wallet c
            /\ exists frames, socket (socket_write f c) = (socket c ++ frames)%list
                              /\ Forall (fun f => is_notify f = false) frames).
  { intros f Hf. split; [reflexivity|]. exists [f]. split; [reflexivity|].
    now constructor. }
  destruct line as [| |message]; cbv zeta.
  { right. exact Hnone. }
  { right. now apply Hone. }
  unfold onLine, V2.handleStratumMethod.
  destruct (destructure_message message) as [[[id method] params]|];
    [|right; now apply Hone].
  unfold try_catch.
  destruct (is_str method "mining.subscribe").
  { destruct (iterate params) as [items|] eqn:Hit.
    - rewrite (V2_subscribe_runs id params items c w Hit).
      destruct (truthy (ALGORITHMS_get (nth_elem items 0))).
      + right. split; [reflexivity|].
        exists [set_difficulty_frame
                  (JNum (getDifficultyForAlgo (ALGORITHMS_get (nth_elem items 0))));
                V2.subscribeResponse id (nth_elem items 1)].
        split; [simpl; now rewrite <- app_assoc|].
        repeat constructor.
      + right. now apply Hone.
    - rewrite (V2_subscribe_not_iterable id params (c, w) Hit).
      right. now apply Hone. }
  destruct (is_str method "mining.authorize").
  { destruct (iterate params) as [items|] eqn:Hit.
    - rewrite (V2_authorize_runs node id params items c w Hit). cbv zeta.
      destruct (V2.createMiningJob node (algorithm c) w) as [[job| |] w'];
        left; reflexivity.
    - rewrite (V2_authorize_not_iterable node id params (c, w) Hit).
      right. now apply Hone. }
  destruct (is_str method "mining.submit"); [|right; exact Hnone].
  destruct (V2_submit_response node id params c w) as (o & w' & Hrun & _ & _ & Ho).
  rewrite Hrun. destruct Ho as [-> | (r & -> & Htruthy & Hr)].
  - right. now apply Hone.
  - rewrite Htruthy. right. now apply Hone.
Qed.

Lemma V2_onLine_authorized `{JsRuntime} node line c w :
  authorized c = true ->
  authorized (fst (onLine (V2.handleStratumMethod node) line (c, w))) = true.
Proof.
  intros Hc. destruct line as [| |message]; [exact Hc | exact Hc |].
  destruct (onLine_json_fields (V2.handleStratumMethod node) message c w) as (Ha & _).
  pose proof (V2_handle_session_state node message c w) as (_ & Hh & _).
  cbv zeta in *. rewrite Ha. destruct Hh as [[Hsame _] | Hset]; congruence.
Qed.

Lemma V2_onLines_kept_out `{JsRuntime} input : forall c w,
  authorized c = true \/ kept_out c ->
  let c' := fst (onLines V2.handleStratumMethod input (c, w)) in
  authorized c' = true \/ kept_out c'.
Proof.
  induction input as [|[line node] rest IH]; intros c w Hc; simpl; [exact Hc|].
  pose proof (V2_onLine_kept_out node line c w) as Hline.
  pose proof (V2_onLine_authorized node line c w) as Hkeeps.
  simpl in Hline, Hkeeps.
  destruct (onLine (V2.handleStratumMethod node) line (c, w)) as [c1 w1].
  apply IH. simpl in *.
  destruct Hline as [Hauth | (Hwallet & frames & Hsocket & Hframes)]; [now left|].
  destruct Hc as [Hc | [Hc Hnever]].
  - left. now apply Hkeeps.
  - right. split; [congruence|]. rewrite Hsocket. apply Forall_app. now split.
Qed.

(** A tick changes the session objects of authorized sessions only, and
    makes and drops none. *)
Lemma updateClients_heap `{JsRuntime} refs node_for : forall srv r,
  match heap (updateClients refs node_for srv) !! r with
  | Some c => heap srv !! r = Some c
              \/ (authorized c = true /\ is_Some (heap srv !! r))
  | None => heap srv !! r = None
  end.
Proof.
  induction refs as [|r0 rest IH]; intros srv r; simpl.
  { destruct (heap srv !! r); auto. }
  destruct (heap srv !! r0) as [c0|] eqn:Hc0; [|apply IH].
  destruct (authorized c0) eqn:Hauth0; [|apply IH].
  pose proof (updateClient_session (node_for r0) c0 (process srv) Hauth0) as Hc'.
  destruct (updateClient (node_for r0) (c0, process srv)) as [o [c' w']].
  simpl in Hc'.
  set (srv' := {| heap := <[r0:=c']> (heap srv); clients := clients srv;
                  next_ref := next_ref srv; process := w' |}).
  assert (Hstore : match heap srv' !! r with
                   | Some c => heap srv !! r = Some c
                               \/ (authorized c = true /\ is_Some (heap srv !! r))
                   | None => heap srv !! r = None
                   end).
  { simpl. destruct (decide (r0 = r)) as [<-|Hne].
    - rewrite lookup_insert_eq. right. rewrite Hc0. eauto.
    - rewrite lookup_insert_ne by exact Hne. destruct (heap srv !! r); auto. }
  assert (Hrest : match heap (updateClients rest node_for srv') !! r with
                  | Some c => heap srv !! r = Some c
                              \/ (authorized c = true /\ is_Some (heap srv !! r))
                  | None => heap srv !! r = None
                  end).
  { specialize (IH srv' r).
    destruct (heap (updateClients rest node_for srv') !! r) as [c|].
    - destruct IH as [Hsame | [Hauth Hsome]].
      + rewrite Hsame in Hstore. exact Hstore.
      + right. split; [exact Hauth|].
        destruct (heap srv' !! r) as [c1|]; [|now destruct Hsome].
        destruct Hstore as [-> | [_ Hs]]; eauto.
    - rewrite IH in Hstore. exact Hstore. }
  destruct o as [[]|x|]; [exact Hrest | exact Hrest | exact Hstore].
Qed.

Lemma onConnection_registry_ok fresh now srv :
  registry_ok srv -> registry_ok (snd (onConnection fresh now srv)).
Proof.
  intros (Hnodup & Hheap & Hnext). unfold onConnection, clients_add. simpl.
  assert (Hnew : next_ref srv ∉ clients srv).
  { intros Hin. apply Hheap, Hnext in Hin. lia. }
  destruct (decide (next_ref srv ∈ clients srv)) as [Hin|_]; [contradiction|].
  split; [|split]; simpl.
  - apply NoDup_app. split; [exact Hnodup|]. split.
    + intros r Hr Hr'. apply list_elem_of_singleton in Hr' as ->. contradiction.
    + apply NoDup_singleton.
  - intros r Hr. apply elem_of_app in Hr as [Hr|Hr].
    + destruct (decide (next_ref srv = r)) as [->|Hne]; [now rewrite lookup_insert_eq|].
      rewrite lookup_insert_ne by exact Hne. now apply Hheap.
    + apply list_elem_of_singleton in Hr as ->. now rewrite lookup_insert_eq.
  - intros r Hr. destruct (decide (next_ref srv = r)) as [<-|Hne]; [lia|].
    rewrite lookup_insert_ne in Hr by exact Hne. apply Hnext in Hr. lia.
Qed.

Lemma onData_registry_ok handle r input srv :
  registry_ok srv -> registry_ok (onData handle r input srv).
Proof.
  intros (Hnodup & Hheap & Hnext). unfold onData.
  destruct (heap srv !! r) as [c|] eqn:Hc; [|now repeat split].
  destruct (onLines handle input (c, process srv)) as [c' w'].
  assert (Hdom : forall r', is_Some (<[r:=c']> (heap srv) !! r')
                            <-> is_Some (heap srv !! r')).
  { intros r'. destruct (decide (r = r')) as [<-|Hne].
    - rewrite lookup_insert_eq, Hc. split; eauto.
    - now rewrite lookup_insert_ne. }
  split; [exact Hnodup|]. split; simpl.
  - intros r' Hr'. apply Hdom. now apply Hheap.
  - intros r' Hr'. apply Hnext. now apply Hdom.
Qed.

Lemma onClose_registry_ok r srv :
  registry_ok srv -> registry_ok (onClose r srv).
Proof.
  intros (Hnodup & Hheap & Hnext). unfold onClose, clients_delete.
  split; [|split]; simpl.
  - now apply NoDup_filter.
  - intros r' Hr'. apply list_elem_of_filter in Hr' as [_ Hr']. now apply Hheap.
  - exact Hnext.
Qed.

Lemma blockTemplateUpdates_registry_ok `{JsRuntime} node_for srv :
  registry_ok srv -> registry_ok (blockTemplateUpdates node_for srv).
Proof.
  intros (Hnodup & Hheap & Hnext). unfold blockTemplateUpdates.
  destruct (updateClients_registry (clients srv) node_for srv) as [Hclients Hnext'].
  assert (Hdom : forall r, is_Some (heap (updateClients (clients srv) node_for srv) !! r)
                           <-> is_Some (heap srv !! r)).
  { intros r. pose proof (updateClients_heap (clients srv) node_for srv r) as Hr.
    destruct (heap (updateClients (clients srv) node_for srv) !! r) as [c|].
    - destruct Hr as [-> | [_ Hsome]]; split; eauto.
    - rewrite Hr. reflexivity. }
  split; [|split].
  - now rewrite Hclients.
  - intros r Hr. rewrite Hclients in Hr. apply Hdom. now apply Hheap.
  - intros r Hr. rewrite Hnext'. apply Hnext. now apply Hdom.
Qed.

Lemma initial_server_registry_ok : registry_ok initial_server.
Proof.
  split; [|split]; simpl.
  - apply NoDup_nil_2.
  - intros r Hr. now apply elem_of_nil in Hr.
  - intros r Hr. rewrite lookup_empty in Hr. now destruct Hr.
Qed.

(** What holds of every session object of a running server of the second
    variant. *)
Lemma V2_serve_sessions `{JsRuntime} events : forall srv,
  registry_ok srv ->
  (forall r c, heap srv !! r = Some c -> authorized c = true \/ kept_out c) ->
  let out := serve V2.new_client V2.handleStratumMethod blockTemplateUpdates events srv in
  registry_ok out
  /\ forall r c, heap out !! r = Some c -> authorized c = true \/ kept_out c.
Proof.
  induction events as [|e rest IH]; intros srv Hok Hall; simpl; [auto|].
  apply IH; destruct e as [now|r0 input|r0|node_for]; simpl.
  - now apply onConnection_registry_ok.
  - now apply onData_registry_ok.
  - now apply onClose_registry_ok.
  - now apply blockTemplateUpdates_registry_ok.
  - intros r c Hc. destruct (decide (next_ref srv = r)) as [<-|Hne].
    + rewrite lookup_insert_eq in Hc. injection Hc as <-. right.
      split; [reflexivity | constructor].
    + rewrite lookup_insert_ne in Hc by exact Hne. eauto.
  - intros r c Hc. unfold onData in Hc.
    destruct (heap srv !! r0) as [c0|] eqn:Hc0; [|eauto].
    pose proof (V2_onLines_kept_out input c0 (process srv) (Hall r0 c0 Hc0)) as Hlines.
    destruct (onLines V2.handleStratumMethod input (c0, process srv)) as [c' w'].
    simpl in Hc, Hlines. destruct (decide (r0 = r)) as [<-|Hne].
    + rewrite lookup_insert_eq in Hc. now injection Hc as <-.
    + rewrite lookup_insert_ne in Hc by exact Hne. eauto.
  - eauto.
  - intros r c Hc. unfold blockTemplateUpdates in Hc.
    pose proof (updateClients_heap (clients srv) node_for srv r) as Hr.
    rewrite Hc in Hr. destruct Hr as [Hsame | [Hauth _]]; eauto.
Qed.

(** X18. In the second variant no job reaches a session that has not
    authorized.  Whatever connections, chunks of lines, socket ends and
    timer ticks a server has seen since it started, a session whose
    authorized flag is false has no wallet and has never been sent a
    mining.notify frame, by a handler or by the timer.  The registry of such a
    server holds no session twice, which is what the timer's loop needs to
    serve each session once. *)
Theorem X18_V2_jobs_only_to_authorized `{JsRuntime} :
  forall events,
    let srv := serve V2.new_client V2.handleStratumMethod blockTemplateUpdates
                 events initial_server in
    NoDup (clients srv)
    /\ (forall r, r ∈ clients srv -> is_Some (heap srv !! r))
    /\ (forall r c, heap srv !! r = Some c -> authorized c = false -> kept_out c).
Proof.
  intros events srv.
  destruct (V2_serve_sessions events initial_server initial_server_registry_ok)
    as [(Hnodup & Hheap & _) Hall].
  { intros r c Hc. simpl in Hc. rewrite lookup_empty in Hc. discriminate Hc. }
  fold srv in Hnodup, Hheap, Hall.
  split; [exact Hnodup|]. split; [exact Hheap|].
  intros r c Hc Hauth. destruct (Hall r c Hc) as [Hyes | Hout]; [congruence | exact Hout].
Qed.

Lemma X18_V2_jobs_only_to_authorized_witness :
  exists c, heap sample_server !! 2 = Some c
            /\ algorithm c = JStr "randomx"
            /\ kept_out c.
Proof.
  exists (socket_write (@V2.subscribeResponse integer_runtime (JNum 1) JUndef)
            (V2_subscribed (JStr "randomx") (V2.new_client "2024-01-01 00:00:02"))).
  assert (Hc : heap sample_server !! 2
               = Some (socket_write (@V2.subscribeResponse integer_runtime (JNum 1) JUndef)
                         (V2_subscribed (JStr "randomx")
                            (V2.new_client "2024-01-01 00:00:02")))).
  { vm_compute. reflexivity. }
  split; [exact Hc|]. split; [reflexivity|].
  apply (proj2 (proj2 (@X18_V2_jobs_only_to_authorized integer_runtime _)) 2 _ Hc).
  reflexivity.
Defined.

(** ** Where jobs are made *)

Lemma no_job_frames (c : Client) (w w' : World) (frames : list JsVal) (c' : Client) :
  jobCounter w' = jobCounter w ->
  currentJobs w' = currentJobs w ->
  socket c' = (socket c ++ frames)%list ->
  Forall (fun f => is_notify f = false) frames ->
  no_job (c, w) (c', w').
Proof.
  intros Hn Ht Hs Hf. repeat split; [exact Hn | exact Ht |].
  exists frames. now split.
Qed.

(** X19. Where jobs are made and sent.  In the first variant only a
    mining.subscribe does it: a line that is no subscribe request makes no
    job (counter and job table stay) and writes no mining.notify frame, and
    the timer of that variant, which only asks the node for its status,
    touches neither a session nor the counter nor the job table; so a miner
    of the first variant gets a job only in answer to a subscribe.  In the
    second variant a line that is no mining.authorize request makes no job
    and writes no mining.notify frame: there jobs come from authorize and
    from the timer. *)
Theorem X19_where_jobs_are_made `{JsRuntime} :
  forall node line c w,
    (line_method_is "mining.subscribe" line = false ->
     no_job (c, w) (onLine (V1.handleStratumMethod node) line (c, w)))
    /\ (line_method_is "mining.authorize" line = false ->
        no_job (c, w) (onLine (V2.handleStratumMethod node) line (c, w)))
    /\ (forall node_for srv,
          let out := nodeStatusCheck node_for srv in
          heap out = heap srv
          /\ clients out = clients srv
          /\ jobCounter (process out) = jobCounter (process srv)
          /\ currentJobs (process out) = currentJobs (process srv)).
Proof.
  intros node line c w.
  assert (Hnone : forall w', jobCounter w' = jobCounter w ->
                             currentJobs w' = currentJobs w -> no_job (c, w) (c, w')).
  { intros w' Hn Ht. apply (no_job_frames c w w' []); auto. now rewrite app_nil_r. }
  assert (Hone : forall f w', is_notify f = false -> jobCounter w' = jobCounter w ->
                              currentJobs w' = currentJobs w ->
                              no_job (c, w) (socket_write f c, w')).
  { intros f w' Hf Hn Ht. apply (no_job_frames c w w' [f]); auto. }
  split; [|split].
  - intros Hline. destruct line as [| |message]; [now apply Hnone | now apply Hone |].
    unfold onLine, V1.handleStratumMethod. simpl in Hline.
    destruct (destructure_message message) as [[[id method] params]|];
      [|now apply Hone].
    unfold try_catch. rewrite Hline.
    destruct (is_str method "mining.authorize").
    { rewrite V1_authorize_runs. destruct (is_nullish params).
      - apply (no_job_frames c w w
                 [true_response id; error_response id (JStr "Internal error")]); auto.
        simpl. now rewrite <- app_assoc.
      - now apply Hone. }
    destruct (is_str method "mining.submit").
    { destruct (iterate params) as [items|] eqn:Hit.
      - rewrite (V1_submit_forwards node id params items c w Hit). cbv zeta.
        match goal with |- context [submitblock node ?p] =>
          destruct (submitblock node p) as [err|result] end; now apply Hone.
      - rewrite (V1_submit_not_iterable node id params (c, w) Hit). now apply Hone. }
    now apply Hone.
  - intros Hline. destruct line as [| |message]; [now apply Hnone | now apply Hone |].
    unfold onLine, V2.handleStratumMethod. simpl in Hline.
    destruct (destructure_message message) as [[[id method] params]|];
      [|now apply Hone].
    unfold try_catch. rewrite Hline.
    destruct (is_str method "mining.subscribe").
    { destruct (iterate params) as [items|] eqn:Hit.
      - rewrite (V2_subscribe_runs id params items c w Hit).
        destruct (truthy (ALGORITHMS_get (nth_elem items 0))); [|now apply Hone].
        apply (no_job_frames c w w
                 [set_difficulty_frame
                    (JNum (getDifficultyForAlgo (ALGORITHMS_get (nth_elem items 0))));
                  V2.subscribeResponse id (nth_elem items 1)]); auto.
        simpl. now rewrite <- app_assoc.
      - rewrite (V2_subscribe_not_iterable id params (c, w) Hit). now apply Hone. }
    destruct (is_str method "mining.submit"); [|now apply Hnone].
    destruct (V2_submit_response node id params c w) as (o & w' & Hrun & Hn & Ht & Ho).
    rewrite Hrun. destruct Ho as [-> | (r & -> & Htruthy & Hr)].
    + now apply Hone.
    + rewrite Htruthy. now apply Hone.
  - intros node_for srv. unfold nodeStatusCheck, V1.checkNodeStatus. cbv zeta. simpl.
    repeat split; run;
      destruct (getBlockchainInfo (node_for 0)) as [err|[info|]]; reflexivity.
Qed.

Lemma X19_where_jobs_are_made_witness :
  no_job (V1.new_client "2024-01-01 00:00:00", initial_world)
    (onLine (@V1.handleStratumMethod integer_runtime (node_at 1))
       (Json (frame (JNum 2) "mining.authorize" (JArr [JStr "alice"; JStr "x"])))
       (V1.new_client "2024-01-01 00:00:00", initial_world)).
Proof.
  apply (proj1 (@X19_where_jobs_are_made integer_runtime (node_at 1)
                  (Json (frame (JNum 2) "mining.authorize" (JArr [JStr "alice"; JStr "x"])))
                  (V1.new_client "2024-01-01 00:00:00") initial_world)).
  reflexivity.
Defined.
